(** * Market-making backtester and portfolio Monte Carlo engine

    A shallow embedding of the execution/accounting loop of
    [src/python/backtester.py], the price-cleaning step of
    [src/python/data_processor.py] and the vectorised portfolio engine of
    [src/python/simulator.py], followed by the properties established
    for them.

    Numbers.  A Python [float] is modelled by an exact rational in
    canonical form ([Qc], so that equal values are equal terms) extended
    with one missing-value marker [NaN].  Arithmetic is exact: binary64
    rounding, overflow and the two infinities are outside the model.  A
    Python [int] is a [Z].  The transcendental primitives of NumPy
    ([np.exp], [np.sqrt]) and its random generator are parameters of the
    sections that use them. *)

From Stdlib Require Import ZArith QArith Qcanon Qround List Bool Lia String.
Import ListNotations.

(** ** Numeric layer *)

Module Num.

Local Open Scope Qc_scope.

(** The integer [z] and the decimal literal [n/d] as floats. *)
Definition of_Z (z : Z) : Qc := Q2Qc (inject_Z z).
Definition ratio (n : Z) (d : positive) : Qc := Q2Qc (n # d).

Definition Qc_ltb (a b : Qc) : bool :=
  match a ?= b with Lt => true | _ => false end.
Definition Qc_leb (a b : Qc) : bool :=
  match a ?= b with Gt => false | _ => true end.
Definition Qc_eqb (a b : Qc) : bool :=
  match a ?= b with Eq => true | _ => false end.

(** [int(x)]: truncation towards zero.  [math.floor(x)]. *)
Definition trunc (a : Qc) : Z := Z.quot (Qnum a) (Zpos (Qden a)).
Definition floor (a : Qc) : Z := Qfloor a.

(** [np.maximum(a, b)] and [np.clip(x, lo, hi)] on finite values. *)
Definition np_maximum (a b : Qc) : Qc := if Qc_ltb a b then b else a.
Definition np_minimum (a b : Qc) : Qc := if Qc_ltb b a then b else a.
Definition np_clip (x lo hi : Qc) : Qc := np_minimum (np_maximum x lo) hi.

(** A float that may be the missing-value marker. *)
Inductive pyfloat : Type :=
| NaN
| Fin (q : Qc).

Definition lift2 (f : Qc -> Qc -> Qc) (a b : pyfloat) : pyfloat :=
  match a, b with
  | Fin x, Fin y => Fin (f x y)
  | _, _ => NaN
  end.

Definition fadd := lift2 Qcplus.
Definition fsub := lift2 Qcminus.
Definition fmul := lift2 Qcmult.
(** Every division of the modelled code has a divisor that is a
    non-zero constant or guarded to be positive. *)
Definition fdiv := lift2 Qcdiv.

(** Comparisons: any comparison with [NaN] is [False]. *)
Definition cmp2 (f : Qc -> Qc -> bool) (a b : pyfloat) : bool :=
  match a, b with
  | Fin x, Fin y => f x y
  | _, _ => false
  end.

Definition flt := cmp2 Qc_ltb.
Definition fle := cmp2 Qc_leb.
Definition fgt (a b : pyfloat) : bool := flt b a.
Definition fge (a b : pyfloat) : bool := fle b a.

Definition isnan (a : pyfloat) : bool :=
  match a with NaN => true | Fin _ => false end.

(** [float(z)] for an [int] [z]; the literal [n/d]. *)
Definition of_int (z : Z) : pyfloat := Fin (of_Z z).
Definition lit (n : Z) (d : positive) : pyfloat := Fin (ratio n d).

(** [int(x)]: raises [ValueError] on [NaN] ([None]). *)
Definition py_int (a : pyfloat) : option Z :=
  match a with
  | NaN => None
  | Fin x => Some (trunc x)
  end.

(** [n or 1] on an [int]. *)
Definition or_1 (n : Z) : Z := if (n =? 0)%Z then 1%Z else n.

(** The builtin [min(a, b)] on floats: the first argument is kept
    unless the second is strictly smaller. *)
Definition py_min (a b : pyfloat) : pyfloat := if flt b a then b else a.

(** Truth value of a float: everything but zero is true. *)
Definition truthy (a : pyfloat) : bool :=
  match a with
  | NaN => true
  | Fin x => negb (Qc_eqb x 0)
  end.

Declare Scope pyfloat_scope.
Delimit Scope pyfloat_scope with F.
Bind Scope pyfloat_scope with pyfloat.
Infix "+" := fadd : pyfloat_scope.
Infix "-" := fsub : pyfloat_scope.
Infix "*" := fmul : pyfloat_scope.
Infix "/" := fdiv : pyfloat_scope.
Infix "<?" := flt : pyfloat_scope.
Infix "<=?" := fle : pyfloat_scope.
Infix ">?" := fgt : pyfloat_scope.
Infix ">=?" := fge : pyfloat_scope.

(** Insertion sort along an order [leb]; ties keep their order. *)
Fixpoint insert_by {A : Type} (leb : A -> A -> bool) (x : A) (l : list A) : list A :=
  match l with
  | [] => [x]
  | y :: l' => if leb x y then x :: l else y :: insert_by leb x l'
  end.

Fixpoint sort_by {A : Type} (leb : A -> A -> bool) (l : list A) : list A :=
  match l with
  | [] => []
  | x :: l' => insert_by leb x (sort_by leb l')
  end.

(** Arrays of finite floats: [np.sort], [np.sum], [np.mean]. *)
Definition np_sort (a : list Qc) : list Qc := sort_by Qc_leb a.

Definition np_sum (a : list Qc) : Qc := fold_left Qcplus a 0.

Definition np_mean (a : list Qc) : Qc :=
  np_sum a / of_Z (Z.of_nat (List.length a)).

(** [np.percentile(a, q)] with the default linear interpolation between
    the two order statistics around the position [(n - 1) * q / 100].
    [None] is the exception raised for an empty array or for [q] outside
    [0, 100]. *)
Definition np_percentile (a : list Qc) (q : Qc) : option Qc :=
  if Qc_ltb q 0 || Qc_ltb (of_Z 100) q then None
  else
    match a with
    | [] => None
    | _ :: _ =>
        let s := np_sort a in
        let n := Z.of_nat (List.length a) in
        let virtual_index := of_Z (n - 1) * (q / of_Z 100) in
        let previous := floor virtual_index in
        let next := Z.min (previous + 1) (n - 1) in
        let gamma := virtual_index - of_Z previous in
        let lo := nth (Z.to_nat previous) s 0 in
        let hi := nth (Z.to_nat next) s 0 in
        Some (lo + (hi - lo) * gamma)
    end.

(** [np.std] (the population standard deviation), given [np.sqrt]. *)
Definition np_std (np_sqrt : Qc -> Qc) (a : list Qc) : Qc :=
  let m := np_mean a in
  np_sqrt (np_mean (map (fun x => (x - m) * (x - m)) a)).

(** Element-wise operation on two arrays of the same shape. *)
Definition map2 {A B C : Type} (f : A -> B -> C) (a : list A) (b : list B) : list C :=
  map (fun xy => f (fst xy) (snd xy)) (combine a b).

(** Rational stand-ins for [np.sqrt] (four Newton steps from 1) and
    [np.exp] (the Taylor polynomial of degree two), used where the
    engine is evaluated on concrete inputs. *)
Definition newton_sqrt (x : Qc) : Qc :=
  let step y := (y + x / y) / of_Z 2 in
  step (step (step (step 1))).

Definition taylor_exp (x : Qc) : Qc := 1 + x + x * x / of_Z 2.

(** ** Facts about the numeric layer *)

Lemma Qc_ltb_lt (a b : Qc) : Qc_ltb a b = true <-> a < b.
Proof.
  unfold Qc_ltb. rewrite Qclt_alt. destruct (a ?= b); split; congruence.
Qed.

Lemma Qc_leb_le (a b : Qc) : Qc_leb a b = true <-> a <= b.
Proof.
  unfold Qc_leb. rewrite Qcle_alt. destruct (a ?= b); split; congruence.
Qed.

Lemma Qc_eqb_eq (a b : Qc) : Qc_eqb a b = true <-> a = b.
Proof.
  unfold Qc_eqb. rewrite Qceq_alt. destruct (a ?= b); split; congruence.
Qed.

Lemma Qc_ltb_irrefl (a : Qc) : Qc_ltb a a = false.
Proof.
  destruct (Qc_ltb a a) eqn:E; [|reflexivity].
  apply Qc_ltb_lt in E. exfalso. unfold Qclt in E.
  exact (Qlt_irrefl _ E).
Qed.

Lemma Qc_leb_refl (a : Qc) : Qc_leb a a = true.
Proof. apply Qc_leb_le. apply Qcle_refl. Qed.

Lemma this_of_Z (z : Z) : (this (of_Z z) == inject_Z z)%Q.
Proof. apply Qred_correct. Qed.

Lemma of_Z_le (a b : Z) : (a <= b)%Z -> of_Z a <= of_Z b.
Proof.
  intros H. unfold Qcle. rewrite !this_of_Z, <- Zle_Qle. exact H.
Qed.

Lemma of_Z_lt (a b : Z) : (a < b)%Z -> of_Z a < of_Z b.
Proof.
  intros H. unfold Qclt. rewrite !this_of_Z, <- Zlt_Qlt. exact H.
Qed.

Lemma of_Z_neq_0 (z : Z) : z <> 0%Z -> of_Z z <> 0.
Proof.
  intros H E. apply H.
  assert (E' : (inject_Z z == 0)%Q).
  { rewrite <- this_of_Z, E. reflexivity. }
  unfold Qeq in E'. simpl in E'. lia.
Qed.

(** Truncation of a non-negative value is non-negative. *)
Lemma trunc_nonneg (a : Qc) : 0 <= a -> (0 <= trunc a)%Z.
Proof.
  intros H. unfold trunc. apply Z.quot_pos; [|lia].
  unfold Qcle, Qle in H. simpl in H. lia.
Qed.

Lemma or_1_pos (n : Z) : (0 <= n)%Z -> (1 <= or_1 n)%Z.
Proof. unfold or_1. destruct (Z.eqb_spec n 0); lia. Qed.

End Num.

(** ** The backtester ([src/python/backtester.py]) *)

Module Backtester.

Import Num.
Local Open Scope Z_scope.
Local Open Scope pyfloat_scope.

(** [BacktestConfig], with its defaults. *)
Record BacktestConfig : Type := mkConfig {
  initial_cash : pyfloat;
  spread_bps : pyfloat;
  position_limit : Z;
  fee_bps : pyfloat;
  friction_bps : pyfloat;
  fill_proximity_pct : pyfloat;
  volume_scale : pyfloat
}.

Definition default_config : BacktestConfig :=
  {| initial_cash := lit 100000 1;
     spread_bps := lit 200 1;
     position_limit := 10;
     fee_bps := lit 125 1;
     friction_bps := lit 50 1;
     fill_proximity_pct := lit 2 100;
     volume_scale := lit 1 1 |}.

(** One line of a time-series frame: a timestamp and the four value
    columns.  A missing value is [NaN]. *)
Record Values : Type := mkValues {
  v_date : Z;
  v_fill_price : pyfloat;
  v_fill_volume : pyfloat;
  v_best_ask : pyfloat;
  v_volume : pyfloat
}.

(** A [pd.DataFrame] with a [date] column: which of the optional
    columns it carries, and its lines.  The values of a column the
    frame does not carry are never read. *)
Record DataFrame : Type := mkFrame {
  has_fill_price : bool;
  has_fill_volume : bool;
  has_best_ask : bool;
  has_volume : bool;
  records : list Values
}.

(** A row [ts.iloc[i]]: a [pd.Series] keyed by the frame's columns;
    [None] is a key the row does not have. *)
Record Series : Type := mkSeries {
  date : Z;
  fill_price : option pyfloat;
  fill_volume : option pyfloat;
  best_ask : option pyfloat;
  volume : option pyfloat
}.

Definition col (present : bool) (v : pyfloat) : option pyfloat :=
  if present then Some v else None.

Definition series_of (df : DataFrame) (v : Values) : Series :=
  {| date := v_date v;
     fill_price := col (has_fill_price df) (v_fill_price v);
     fill_volume := col (has_fill_volume df) (v_fill_volume v);
     best_ask := col (has_best_ask df) (v_best_ask v);
     volume := col (has_volume df) (v_volume v) |}.

(** [row.get(key, default)]. *)
Definition get (entry : option pyfloat) (default : pyfloat) : pyfloat :=
  match entry with
  | Some v => v
  | None => default
  end.

(** [df.empty]. *)
Definition empty (df : DataFrame) : bool :=
  match records df with [] => true | _ :: _ => false end.

(** The [Backtester] object: its configuration and the ingested
    series.  The attributes [_fills], [_positions], [_cash] and
    [_equity_curve] are reset by [ingest] and never read by [run]. *)
Record Backtester : Type := mkBacktester {
  config : BacktestConfig;
  _ts : option DataFrame
}.

Definition __init__ (cfg : option BacktestConfig) : Backtester :=
  {| config := match cfg with Some c => c | None => default_config end;
     _ts := None |}.

(** [ts_df["best_ask"] = ts_df.get("fill_price", np.nan)]. *)
Definition assign_best_ask (df : DataFrame) : DataFrame :=
  {| has_fill_price := has_fill_price df;
     has_fill_volume := has_fill_volume df;
     has_best_ask := true;
     has_volume := has_volume df;
     records :=
       map (fun v =>
              {| v_date := v_date v;
                 v_fill_price := v_fill_price v;
                 v_fill_volume := v_fill_volume v;
                 v_best_ask := if has_fill_price df then v_fill_price v else NaN;
                 v_volume := v_volume v |})
           (records df) |}.

(** [ts_df["volume"] = ts_df.get("fill_volume", 1.0)]. *)
Definition assign_volume (df : DataFrame) : DataFrame :=
  {| has_fill_price := has_fill_price df;
     has_fill_volume := has_fill_volume df;
     has_best_ask := has_best_ask df;
     has_volume := true;
     records :=
       map (fun v =>
              {| v_date := v_date v;
                 v_fill_price := v_fill_price v;
                 v_fill_volume := v_fill_volume v;
                 v_best_ask := v_best_ask v;
                 v_volume := if has_fill_volume df then v_fill_volume v else lit 1 1 |})
           (records df) |}.

(** [df.sort_values("date").reset_index(drop=True)].  Lines with equal
    timestamps keep their order here; the observation sequence has
    none. *)
Definition sort_values_date (df : DataFrame) : DataFrame :=
  {| has_fill_price := has_fill_price df;
     has_fill_volume := has_fill_volume df;
     has_best_ask := has_best_ask df;
     has_volume := has_volume df;
     records := sort_by (fun a b => (v_date a <=? v_date b)%Z) (records df) |}.

Definition ingest (self : Backtester) (ts_df : DataFrame) : Backtester :=
  let ts_df := if has_best_ask ts_df then ts_df else assign_best_ask ts_df in
  let ts_df := if has_volume ts_df then ts_df else assign_volume ts_df in
  {| config := config self;
     _ts := Some (sort_values_date ts_df) |}.

(** [_synthetic_order_book(row, date)]; the [date] argument is unused. *)
Definition _synthetic_order_book (self : Backtester) (row : Series) : pyfloat * pyfloat :=
  let ask := get (best_ask row) (get (fill_price row) NaN) in
  if isnan ask then (NaN, NaN)
  else
    let spread := ask * (spread_bps (config self) / lit 10000 1) in
    let bid := ask - spread in
    (bid, ask).

(** [simulate_fill(side, price, row, date)]; [date] is unused. *)
Definition simulate_fill (self : Backtester) (side : string) (price : pyfloat)
    (row : Series) : bool :=
  let fill_price := get (fill_price row) NaN in
  let volume := get (fill_volume row) (lit 1 1) * volume_scale (config self) in
  if isnan fill_price || (volume <=? lit 0 1) then false
  else
    let proximity := fill_proximity_pct (config self) in
    if String.eqb side "buy" then price >=? fill_price * (lit 1 1 - proximity)
    else if String.eqb side "sell" then price <=? fill_price * (lit 1 1 + proximity)
    else false.

(** The local variables of [run] that live across loop iterations. *)
Record LoopState : Type := mkLoop {
  cash : pyfloat;
  position : Z;
  cost_basis : pyfloat;
  equity_curve : list pyfloat;
  hold_curve : list pyfloat;
  trade_pnls : list pyfloat;
  peak_equity : pyfloat;
  max_dd : pyfloat;
  inventory_days_stale : pyfloat;
  total_inventory_risk_cost : pyfloat
}.

(** The constants [run] computes before its loop. *)
Definition fee_mult (self : Backtester) : pyfloat :=
  lit 1 1 - (fee_bps (config self) + friction_bps (config self)) / lit 10000 1.

Definition first_fill_price (ts : DataFrame) : pyfloat :=
  match records ts with
  | [] => NaN
  | v :: _ =>
      let p := get (fill_price (series_of ts v)) NaN in
      if isnan p then lit 0 1 else p
  end.

Definition hold_cash_after_buy (self : Backtester) (ts : DataFrame) : pyfloat :=
  if first_fill_price ts >? lit 0 1
  then initial_cash (config self) - first_fill_price ts
  else initial_cash (config self).

Definition initial_state (self : Backtester) : LoopState :=
  {| cash := initial_cash (config self);
     position := 0;
     cost_basis := lit 0 1;
     equity_curve := [initial_cash (config self)];
     hold_curve := [initial_cash (config self)];
     trade_pnls := [];
     peak_equity := initial_cash (config self);
     max_dd := lit 0 1;
     inventory_days_stale := lit 0 1;
     total_inventory_risk_cost := lit 0 1 |}.

(** The branch taken when the order book is missing (lines 134-138). *)
Definition skip_period (ts : DataFrame) (self : Backtester) (st : LoopState)
    (row : Series) : LoopState :=
  let fill_price := get (fill_price row) NaN in
  let mtm := if negb (isnan fill_price) then fill_price else lit 0 1 in
  {| cash := cash st;
     position := position st;
     cost_basis := cost_basis st;
     equity_curve := equity_curve st ++ [cash st + of_int (position st) * mtm];
     hold_curve :=
       hold_curve st ++
       [hold_cash_after_buy self ts +
        (if truthy (first_fill_price ts) then lit 1 1 else lit 0 1) * mtm];
     trade_pnls := trade_pnls st;
     peak_equity := peak_equity st;
     max_dd := max_dd st;
     inventory_days_stale := inventory_days_stale st;
     total_inventory_risk_cost := total_inventory_risk_cost st |}.

(** The buy block (lines 141-149).  [None] is the exception of
    [int(fill_vol)]. *)
Definition buy_block (self : Backtester) (st : LoopState) (row : Series)
    (bid : pyfloat) : option LoopState :=
  let fill_price := get (fill_price row) NaN in
  let fill_vol := get (fill_volume row) (lit 1 1) in
  if (position st <? position_limit (config self))%Z
     && simulate_fill self "buy" bid row
  then
    let cost := fill_price * fee_mult self in
    if cash st >=? cost * fill_vol then
      match py_int fill_vol with
      | None => None
      | Some n =>
          let size := Z.min (or_1 n) (position_limit (config self) - position st) in
          Some {| cash := cash st - cost * of_int size;
                  position := position st + size;
                  cost_basis := cost_basis st + cost * of_int size;
                  equity_curve := equity_curve st;
                  hold_curve := hold_curve st;
                  trade_pnls := trade_pnls st ++ [lit 0 1];
                  peak_equity := peak_equity st;
                  max_dd := max_dd st;
                  inventory_days_stale := lit 0 1;
                  total_inventory_risk_cost := total_inventory_risk_cost st |}
      end
    else Some st
  else Some st.

(** The sell block (lines 152-160). *)
Definition sell_block (self : Backtester) (st : LoopState) (row : Series)
    (ask : pyfloat) : option LoopState :=
  let fill_price := get (fill_price row) NaN in
  let fill_vol := get (fill_volume row) (lit 1 1) in
  if (position st >? 0)%Z && simulate_fill self "sell" ask row then
    let proceeds := fill_price * fee_mult self * fill_vol in
    match py_int fill_vol with
    | None => None
    | Some n =>
        let size := Z.min (or_1 n) (position st) in
        let pnl :=
          (fill_price - cost_basis st / of_int (Z.max (position st) 1)) * of_int size in
        Some {| cash := cash st + proceeds * of_int size / of_int (Z.max size 1);
                position := position st - size;
                cost_basis :=
                  cost_basis st
                  - cost_basis st / of_int (Z.max (position st) 1) * of_int size;
                equity_curve := equity_curve st;
                hold_curve := hold_curve st;
                trade_pnls := trade_pnls st ++ [pnl];
                peak_equity := peak_equity st;
                max_dd := max_dd st;
                inventory_days_stale := lit 0 1;
                total_inventory_risk_cost := total_inventory_risk_cost st |}
    end
  else Some st.

(** The rest of the loop body (lines 162-179): inventory-risk accrual,
    equity mark, drawdown and the hold benchmark. *)
Definition accrue_and_mark (ts : DataFrame) (self : Backtester) (st : LoopState)
    (row : Series) : LoopState :=
  let fill_price := get (fill_price row) NaN in
  let inventory_days_stale := inventory_days_stale st + lit 1 1 in
  let stale_penalty :=
    of_int (position st) * fill_price * lit 1 1000
    * py_min (inventory_days_stale / lit 30 1) (lit 1 1) in
  let total_inventory_risk_cost :=
    if (position st >? 0)%Z then total_inventory_risk_cost st + stale_penalty
    else total_inventory_risk_cost st in
  let cash := if (position st >? 0)%Z then cash st - stale_penalty else cash st in
  let mtm := if negb (isnan fill_price) then fill_price else lit 0 1 in
  let equity := cash + of_int (position st) * mtm in
  let peak_equity := if equity >? peak_equity st then equity else peak_equity st in
  let dd :=
    if peak_equity >? lit 0 1 then (peak_equity - equity) / peak_equity
    else lit 0 1 in
  {| cash := cash;
     position := position st;
     cost_basis := cost_basis st;
     equity_curve := equity_curve st ++ [equity];
     hold_curve :=
       hold_curve st ++
       [hold_cash_after_buy self ts +
        (if first_fill_price ts >? lit 0 1 then lit 1 1 else lit 0 1) * mtm];
     trade_pnls := trade_pnls st;
     peak_equity := peak_equity;
     max_dd := if dd >? max_dd st then dd else max_dd st;
     inventory_days_stale := inventory_days_stale;
     total_inventory_risk_cost := total_inventory_risk_cost |}.

(** One iteration of the loop of [run]. *)
Definition period (ts : DataFrame) (self : Backtester) (st : LoopState)
    (row : Series) : option LoopState :=
  let '(bid, ask) := _synthetic_order_book self row in
  if isnan bid || isnan ask then Some (skip_period ts self st row)
  else
    match buy_block self st row bid with
    | None => None
    | Some st1 =>
        match sell_block self st1 row ask with
        | None => None
        | Some st2 => Some (accrue_and_mark ts self st2 row)
        end
    end.

(** [for i in range(len(ts))]. *)
Fixpoint loop (ts : DataFrame) (self : Backtester) (st : LoopState)
    (rows : list Values) : option LoopState :=
  match rows with
  | [] => Some st
  | v :: rows' =>
      match period ts self st (series_of ts v) with
      | None => None
      | Some st' => loop ts self st' rows'
      end
  end.

(** [BacktestMetrics]; the Sharpe ratio of the equity returns is not
    part of the model. *)
Record BacktestMetrics : Type := mkMetrics {
  total_pnl : pyfloat;
  max_drawdown_pct : pyfloat;
  inventory_risk_cost : pyfloat;
  num_trades : nat;
  win_rate_pct : pyfloat;
  m_equity_curve : list pyfloat;
  m_hold_curve : list pyfloat
}.

Definition default_metrics : BacktestMetrics :=
  {| total_pnl := lit 0 1;
     max_drawdown_pct := lit 0 1;
     inventory_risk_cost := lit 0 1;
     num_trades := 0;
     win_rate_pct := lit 0 1;
     m_equity_curve := [];
     m_hold_curve := [] |}.

Definition metrics_of (self : Backtester) (st : LoopState) : BacktestMetrics :=
  let wins := filter (fun p => p >? lit 0 1) (trade_pnls st) in
  {| total_pnl := last (equity_curve st) NaN - initial_cash (config self);
     max_drawdown_pct := max_dd st * lit 100 1;
     inventory_risk_cost := total_inventory_risk_cost st;
     num_trades := List.length (trade_pnls st);
     win_rate_pct :=
       match trade_pnls st with
       | [] => lit 0 1
       | _ :: _ =>
           of_int (Z.of_nat (List.length wins))
           / of_int (Z.of_nat (List.length (trade_pnls st)))
           * lit 100 1
       end;
     m_equity_curve := equity_curve st;
     m_hold_curve := hold_curve st |}.

(** [run()]: the metrics, or [None] when the loop raises. *)
Definition run (self : Backtester) : option BacktestMetrics :=
  match _ts self with
  | None => Some default_metrics
  | Some ts =>
      if empty ts then Some default_metrics
      else
        match loop ts self (initial_state self) (records ts) with
        | None => None
        | Some st => Some (metrics_of self st)
        end
  end.


(** *** Quantities the properties speak of *)

(** Whether the buy block of [run] executes a fill. *)
Definition buy_executes (self : Backtester) (st : LoopState) (row : Series)
    (bid : pyfloat) : bool :=
  (position st <? position_limit (config self))%Z
  && simulate_fill self "buy" bid row
  && (cash st >=? get (fill_price row) NaN * fee_mult self
                  * get (fill_volume row) (lit 1 1)).

(** Whether the sell block of [run] executes a fill. *)
Definition sell_executes (self : Backtester) (st : LoopState) (row : Series)
    (ask : pyfloat) : bool :=
  (position st >? 0)%Z && simulate_fill self "sell" ask row.

(** The specification's wording of the quantities the claims speak of. *)

(** Reference price: the period's best-ask when present, otherwise the
    period's trade price. *)
Definition reference_price_spec (df : DataFrame) (v : Values) : pyfloat :=
  let ask := get (col (has_best_ask df) (v_best_ask v)) NaN in
  if isnan ask then get (col (has_fill_price df) (v_fill_price v)) NaN else ask.

(** Last known trade price: the trade price of the latest period seen
    so far that has one, or zero if none has. *)
Definition last_known_trade_price (seen : list Values) : pyfloat :=
  fold_left (fun acc v => if isnan (v_fill_price v) then acc else v_fill_price v)
            seen (lit 0 1).

(** Fill size: the volume scaled by [volume_scale], rounded down to an
    integer, floored at 1, and capped by [cap]. *)
Definition fill_size_spec (self : Backtester) (row : Series) (cap : Z) : option Z :=
  match get (fill_volume row) (lit 1 1) * volume_scale (config self) with
  | NaN => None
  | Fin q => Some (Z.min (Z.max 1 (floor q)) cap)
  end.

(** Boolean equality of floats as values. *)
Definition feqb (a b : pyfloat) : bool :=
  match a, b with
  | NaN, NaN => true
  | Fin x, Fin y => Qc_eqb x y
  | _, _ => false
  end.

(** The series [ingest] stores. *)
Definition ingested (self : Backtester) (df : DataFrame) : DataFrame :=
  match _ts (ingest self df) with
  | Some ts => ts
  | None => df
  end.

(** The volume a row is read with is non-negative. *)
Definition volume_nonneg (row : Series) : Prop :=
  (get (fill_volume row) (lit 1 1) >=? lit 0 1) = true.

Definition position_ok (self : Backtester) (st : LoopState) : Prop :=
  0 <= position st <= position_limit (config self).

(** *** Concrete series used to evaluate the loop *)

(** Three periods: a trade at 100 under an ask of 110 (five prints), a
    trade at 105 under an ask of 100 (three prints), and a period with
    neither an ask nor a trade. *)
Definition three_periods : DataFrame :=
  {| has_fill_price := true;
     has_fill_volume := true;
     has_best_ask := true;
     has_volume := false;
     records :=
       [ mkValues 1 (lit 100 1) (lit 5 1) (lit 110 1) NaN;
         mkValues 2 (lit 105 1) (lit 3 1) (lit 100 1) NaN;
         mkValues 3 NaN NaN NaN NaN ] |}.

(** One period with a trade at 100 and no ask listed, in a series that
    carries a best-ask column. *)
Definition trade_without_ask : DataFrame :=
  {| has_fill_price := true;
     has_fill_volume := true;
     has_best_ask := true;
     has_volume := true;
     records := [ mkValues 1 (lit 100 1) (lit 1 1) NaN (lit 0 1) ] |}.

(** Two periods with trades, out of time order. *)
Definition two_trades : DataFrame :=
  {| has_fill_price := true;
     has_fill_volume := true;
     has_best_ask := true;
     has_volume := false;
     records :=
       [ mkValues 2 (lit 105 1) (lit 3 1) (lit 100 1) NaN;
         mkValues 1 (lit 100 1) (lit 5 1) (lit 110 1) NaN ] |}.

(** A trade of one print at 100 under an ask of 110, then a trade of
    three prints at 105 under an ask of 100. *)
Definition one_then_three : DataFrame :=
  {| has_fill_price := true;
     has_fill_volume := true;
     has_best_ask := true;
     has_volume := false;
     records :=
       [ mkValues 1 (lit 100 1) (lit 1 1) (lit 110 1) NaN;
         mkValues 2 (lit 105 1) (lit 3 1) (lit 100 1) NaN ] |}.

(** A trade of half a print at 100 under an ask of 110. *)
Definition half_a_print : DataFrame :=
  {| has_fill_price := true;
     has_fill_volume := true;
     has_best_ask := true;
     has_volume := false;
     records := [ mkValues 1 (lit 100 1) (lit 1 2) (lit 110 1) NaN ] |}.

(** The default configuration with a starting cash of 60. *)
Definition sixty_in_cash : BacktestConfig :=
  mkConfig (lit 60 1) (lit 200 1) 10 (lit 125 1) (lit 50 1) (lit 2 100) (lit 1 1).

(** The default configuration with the volume scale doubled. *)
Definition doubled_volume_scale : BacktestConfig :=
  mkConfig (lit 100000 1) (lit 200 1) 10 (lit 125 1) (lit 50 1) (lit 2 100) (lit 2 1).

(** The loop state after the first [n] periods of the ingested series
    (the initial state if the loop raised). *)
Definition state_after (self : Backtester) (df : DataFrame) (n : nat) : LoopState :=
  let bt := ingest self df in
  match loop (ingested self df) bt (initial_state bt)
             (firstn n (records (ingested self df))) with
  | Some st => st
  | None => initial_state bt
  end.

(** The [n]-th row of the ingested series. *)
Definition row_at (self : Backtester) (df : DataFrame) (n : nat) : Series :=
  series_of (ingested self df)
            (nth n (records (ingested self df)) (mkValues 0 NaN NaN NaN NaN)).

(** *** Facts about the loop *)

Lemma fge_zero_inv (a : pyfloat) :
  (a >=? lit 0 1) = true -> exists q, a = Fin q /\ (0 <= q)%Qc.
Proof.
  destruct a as [|q]; simpl; [discriminate|].
  intros H. exists q. split; [reflexivity|]. apply Qc_leb_le. exact H.
Qed.

Lemma In_insert_by {A : Type} (leb : A -> A -> bool) (x y : A) (l : list A) :
  In y (insert_by leb x l) <-> y = x \/ In y l.
Proof.
  induction l as [|z l IH]; simpl.
  - intuition.
  - destruct (leb x z); simpl; [intuition|]. rewrite IH. intuition.
Qed.

Lemma In_sort_by {A : Type} (leb : A -> A -> bool) (y : A) (l : list A) :
  In y (sort_by leb l) <-> In y l.
Proof.
  induction l as [|x l IH]; simpl; [reflexivity|].
  rewrite In_insert_by, IH. intuition.
Qed.

Lemma buy_block_position_ok (self : Backtester) (st : LoopState) (row : Series)
    (bid : pyfloat) :
  volume_nonneg row -> position_ok self st ->
  exists st', buy_block self st row bid = Some st' /\ position_ok self st'.
Proof.
  unfold volume_nonneg, position_ok, buy_block. intros Hv Hp.
  destruct (fge_zero_inv _ Hv) as (q & Eq & Hq). rewrite Eq.
  destruct ((position st <? position_limit (config self))%Z
            && simulate_fill self "buy" bid row) eqn:Ec;
    [|exists st; auto].
  destruct (cash st >=? _); [|exists st; auto].
  simpl py_int. eexists. split; [reflexivity|]. simpl.
  apply andb_prop in Ec. destruct Ec as [Ec _]. apply Z.ltb_lt in Ec.
  pose proof (or_1_pos _ (trunc_nonneg q Hq)). lia.
Qed.

Lemma sell_block_position_ok (self : Backtester) (st : LoopState) (row : Series)
    (ask : pyfloat) :
  volume_nonneg row -> position_ok self st ->
  exists st', sell_block self st row ask = Some st' /\ position_ok self st'.
Proof.
  unfold volume_nonneg, position_ok, sell_block. intros Hv Hp.
  destruct (fge_zero_inv _ Hv) as (q & Eq & Hq). rewrite Eq.
  destruct ((position st >? 0)%Z && simulate_fill self "sell" ask row) eqn:Ec;
    [|exists st; auto].
  simpl py_int. eexists. split; [reflexivity|]. simpl.
  apply andb_prop in Ec. destruct Ec as [Ec _]. apply Z.gtb_lt in Ec.
  pose proof (or_1_pos _ (trunc_nonneg q Hq)). lia.
Qed.

Lemma period_position_ok (ts : DataFrame) (self : Backtester) (st : LoopState)
    (row : Series) :
  volume_nonneg row -> position_ok self st ->
  exists st', period ts self st row = Some st' /\ position_ok self st'.
Proof.
  intros Hv Hp. unfold period.
  destruct (_synthetic_order_book self row) as [bid ask].
  destruct (isnan bid || isnan ask).
  - eexists. split; [reflexivity|]. exact Hp.
  - destruct (buy_block_position_ok self st row bid Hv Hp) as (st1 & E1 & H1).
    rewrite E1.
    destruct (sell_block_position_ok self st1 row ask Hv H1) as (st2 & E2 & H2).
    rewrite E2. eexists. split; [reflexivity|]. exact H2.
Qed.

Lemma loop_position_ok (ts : DataFrame) (self : Backtester) (rows : list Values) :
  forall st,
    Forall (fun v => volume_nonneg (series_of ts v)) rows ->
    position_ok self st ->
    exists st', loop ts self st rows = Some st' /\ position_ok self st'.
Proof.
  induction rows as [|v rows IH]; intros st Hall Hp; simpl.
  - exists st. auto.
  - inversion Hall as [|? ? Hv Hrest]; subst.
    destruct (period_position_ok ts self st _ Hv Hp) as (st1 & E1 & H1).
    rewrite E1. apply IH; assumption.
Qed.

(** What [ingest] does to the lines of the frame. *)
Lemma ingest_records (self : Backtester) (df ts : DataFrame) :
  _ts (ingest self df) = Some ts ->
  has_fill_price ts = has_fill_price df /\
  has_fill_volume ts = has_fill_volume df /\
  has_best_ask ts = true /\
  forall v', In v' (records ts) ->
    exists v, In v (records df) /\
      v_date v' = v_date v /\
      v_fill_price v' = v_fill_price v /\
      v_fill_volume v' = v_fill_volume v /\
      v_best_ask v' =
        (if has_best_ask df then v_best_ask v
         else if has_fill_price df then v_fill_price v else NaN).
Proof.
  unfold ingest. simpl. intros E. injection E as <-.
  destruct (has_best_ask df) eqn:Ea; destruct (has_volume df) eqn:Ev; simpl;
    rewrite ?Ea, ?Ev; simpl; repeat split; try reflexivity; try assumption;
    intros v' Hin; apply In_sort_by in Hin;
    repeat (apply in_map_iff in Hin; destruct Hin as (w & <- & Hin); simpl);
    try (apply in_map_iff in Hin; destruct Hin as (w' & <- & Hin); simpl);
    eauto 10.
Qed.

(** The fee multiplier of [run] is one minus the two fee fractions. *)
Lemma fee_mult_fractions (self : Backtester) :
  fee_mult self =
  lit 1 1 - fee_bps (config self) / lit 10000 1
          - friction_bps (config self) / lit 10000 1.
Proof.
  unfold fee_mult.
  destruct (fee_bps (config self)) as [|a], (friction_bps (config self)) as [|b];
    simpl; try reflexivity.
  f_equal. unfold Qcdiv. ring.
Qed.

Lemma size_times_unit_cost (size : Z) (price m : pyfloat) :
  price * m * of_int size = of_int size * price * m.
Proof.
  destruct price as [|a], m as [|b]; simpl; try reflexivity.
  f_equal. ring.
Qed.

(** Truncation of a non-negative value stays below it, and is at least
    one from one on. *)
Lemma trunc_le (q : Qc) : (0 <= q)%Qc -> (of_Z (trunc q) <= q)%Qc.
Proof.
  intros H. unfold Qcle. rewrite this_of_Z.
  unfold trunc. unfold Qcle, Qle in H. simpl in H.
  assert (Hn : (0 <= Qnum q)%Z) by lia.
  rewrite Z.quot_div_nonneg by lia.
  unfold Qle. simpl. rewrite Z.mul_1_r.
  rewrite Z.mul_comm. apply Z.mul_div_le. lia.
Qed.

Lemma trunc_ge_1 (q : Qc) : (1 <= q)%Qc -> (1 <= trunc q)%Z.
Proof.
  intros H. unfold trunc. unfold Qcle, Qle in H. simpl in H.
  rewrite Z.quot_div_nonneg by lia.
  apply Z.div_le_lower_bound; lia.
Qed.

Lemma feqb_eq (a b : pyfloat) : feqb a b = true <-> a = b.
Proof.
  destruct a as [|x], b as [|y]; simpl; try (split; congruence).
  rewrite Qc_eqb_eq. split; congruence.
Qed.

Lemma feqb_neq (a b : pyfloat) : feqb a b = false -> a <> b.
Proof.
  intros H E. apply feqb_eq in E. congruence.
Qed.

(** *** The claims *)

(** C9. Position-limit invariant: when every period volume is
    non-negative, [position_limit >= 0] and [volume_scale >= 0], the
    loop of [run] raises no exception and after every period of the
    ingested series the position lies between 0 and the position
    limit. *)
Theorem position_within_limit (self : Backtester) (df ts : DataFrame) :
  (forall v, In v (records df) -> has_fill_volume df = true ->
             (v_fill_volume v >=? lit 0 1) = true) ->
  0 <= position_limit (config self) ->
  (volume_scale (config self) >=? lit 0 1) = true ->
  _ts (ingest self df) = Some ts ->
  forall n,
    exists st,
      loop ts (ingest self df) (initial_state (ingest self df))
           (firstn n (records ts)) = Some st /\
      0 <= position st <= position_limit (config self).
Proof.
  intros Hvol Hlim _ Hts n.
  destruct (ingest_records self df ts Hts) as (_ & Hfv & _ & Hrec).
  assert (Hall : Forall (fun v => volume_nonneg (series_of ts v)) (records ts)).
  { apply Forall_forall. intros v' Hin.
    destruct (Hrec v' Hin) as (v & Hv & _ & _ & Efv & _).
    unfold volume_nonneg, series_of. simpl. rewrite Hfv.
    destruct (has_fill_volume df) eqn:E; simpl; [|reflexivity].
    rewrite Efv. apply Hvol; [assumption|reflexivity]. }
  assert (Hpre : Forall (fun v => volume_nonneg (series_of ts v)) (firstn n (records ts))).
  { apply Forall_forall. intros v Hin. rewrite Forall_forall in Hall.
    apply Hall. rewrite <- (firstn_skipn n (records ts)).
    apply in_or_app. left. exact Hin. }
  apply (loop_position_ok ts (ingest self df) _ _ Hpre).
  unfold position_ok. simpl. lia.
Qed.


(** C4 (as amended). For every period of the ingested series the
    reference price of the synthetic order book is the period's best-ask
    value when the series was given a best-ask column, and the period's
    trade price when it was given none (a missing best-ask value in an
    existing column is not replaced by the trade price); when the
    reference is missing both sides of the book are missing, otherwise
    the ask is the reference and the bid is the reference minus the
    reference times the spread fraction. *)
Theorem order_book_reference (self : Backtester) (df ts : DataFrame) (v' : Values) :
  _ts (ingest self df) = Some ts ->
  In v' (records ts) ->
  exists v,
    In v (records df) /\ v_date v' = v_date v /\
    let reference :=
      if has_best_ask df then v_best_ask v
      else if has_fill_price df then v_fill_price v else NaN in
    _synthetic_order_book (ingest self df) (series_of ts v') =
    if isnan reference then (NaN, NaN)
    else (reference - reference * (spread_bps (config self) / lit 10000 1),
          reference).
Proof.
  intros Hts Hin.
  destruct (ingest_records self df ts Hts) as (_ & _ & Hba & Hrec).
  destruct (Hrec v' Hin) as (v & Hv & Hd & _ & _ & Ea).
  exists v. split; [exact Hv|]. split; [exact Hd|].
  unfold _synthetic_order_book, series_of. simpl.
  rewrite Hba. simpl. rewrite Ea. reflexivity.
Qed.

Lemma order_book_reference_witness :
  exists v,
    In v (records three_periods) /\ v_date (mkValues 1 (lit 100 1) (lit 5 1) (lit 110 1)
                                              (lit 5 1)) = v_date v /\
    let reference :=
      if has_best_ask three_periods then v_best_ask v
      else if has_fill_price three_periods then v_fill_price v else NaN in
    _synthetic_order_book (ingest (__init__ None) three_periods)
      (series_of (ingested (__init__ None) three_periods)
                 (mkValues 1 (lit 100 1) (lit 5 1) (lit 110 1) (lit 5 1))) =
    if isnan reference then (NaN, NaN)
    else (reference - reference * (spread_bps (config (__init__ None)) / lit 10000 1),
          reference).
Proof.
  apply (order_book_reference (__init__ None) three_periods
           (ingested (__init__ None) three_periods)).
  - reflexivity.
  - simpl. left. reflexivity.
Defined.

(** C4 as stated fails: in a series with a best-ask column, a period
    with a trade at 100 and no ask has a missing synthetic ask, not the
    trade price. *)
Lemma order_book_fallback_counterexample :
  _synthetic_order_book (ingest (__init__ None) trade_without_ask)
                        (row_at (__init__ None) trade_without_ask 0)
  = (NaN, NaN)
  /\ reference_price_spec trade_without_ask
       (mkValues 1 (lit 100 1) (lit 1 1) NaN (lit 0 1)) = lit 100 1
  /\ snd (_synthetic_order_book (ingest (__init__ None) trade_without_ask)
                                (row_at (__init__ None) trade_without_ask 0))
     <> reference_price_spec trade_without_ask
          (mkValues 1 (lit 100 1) (lit 1 1) NaN (lit 0 1)).
Proof.
  repeat split; try reflexivity. simpl. discriminate.
Qed.

(** C5 (as amended). In a period whose reference price is missing the
    execution logic is skipped (cash, position, cost basis and the
    closed trades are unchanged) and one equity point is recorded: cash
    plus position times the period's own trade price, or times zero
    when the period has no trade price, whatever trade prices were seen
    before. *)
Theorem missing_reference_marks_period (ts : DataFrame) (self : Backtester)
    (st : LoopState) (row : Series) :
  isnan (get (best_ask row) (get (fill_price row) NaN)) = true ->
  exists st',
    period ts self st row = Some st' /\
    cash st' = cash st /\ position st' = position st /\
    cost_basis st' = cost_basis st /\ trade_pnls st' = trade_pnls st /\
    equity_curve st' =
      equity_curve st ++
      [cash st + of_int (position st)
                 * (if isnan (get (fill_price row) NaN) then lit 0 1
                    else get (fill_price row) NaN)].
Proof.
  intros H. unfold period, _synthetic_order_book. rewrite H. simpl.
  eexists. split; [reflexivity|]. simpl. repeat split.
  destruct (isnan (get (fill_price row) NaN)); reflexivity.
Qed.

Lemma missing_reference_marks_period_witness :
  exists st',
    period (ingested (__init__ None) three_periods)
           (ingest (__init__ None) three_periods)
           (state_after (__init__ None) three_periods 2)
           (row_at (__init__ None) three_periods 2) = Some st' /\
    cash st' = cash (state_after (__init__ None) three_periods 2) /\
    position st' = position (state_after (__init__ None) three_periods 2) /\
    cost_basis st' = cost_basis (state_after (__init__ None) three_periods 2) /\
    trade_pnls st' = trade_pnls (state_after (__init__ None) three_periods 2) /\
    equity_curve st' =
      equity_curve (state_after (__init__ None) three_periods 2) ++
      [cash (state_after (__init__ None) three_periods 2)
       + of_int (position (state_after (__init__ None) three_periods 2))
         * (if isnan (get (fill_price (row_at (__init__ None) three_periods 2)) NaN)
            then lit 0 1
            else get (fill_price (row_at (__init__ None) three_periods 2)) NaN)].
Proof.
  apply (missing_reference_marks_period
           (ingested (__init__ None) three_periods)
           (ingest (__init__ None) three_periods)
           (state_after (__init__ None) three_periods 2)
           (row_at (__init__ None) three_periods 2)).
  reflexivity.
Defined.

(** C5 as stated fails: after a trade at 100 and a trade at 105 the
    position of two units is open and the last known trade price is
    105, yet the point recorded for the third period, which has neither
    ask nor trade, marks the position at zero. *)
Lemma last_known_price_counterexample :
  position (state_after (__init__ None) three_periods 3) = 2
  /\ last_known_trade_price (records (ingested (__init__ None) three_periods))
     = lit 105 1
  /\ last (equity_curve (state_after (__init__ None) three_periods 3)) NaN
     = cash (state_after (__init__ None) three_periods 3)
  /\ last (equity_curve (state_after (__init__ None) three_periods 3)) NaN
     <> cash (state_after (__init__ None) three_periods 3)
        + of_int (position (state_after (__init__ None) three_periods 3))
          * last_known_trade_price (records (ingested (__init__ None) three_periods)).
Proof.
  split; [vm_compute; reflexivity|].
  split; [reflexivity|].
  split; [apply feqb_eq; vm_compute; reflexivity|].
  apply feqb_neq. vm_compute. reflexivity.
Qed.


(** C6 (as amended). Whenever a sell fills, the fill size is
    [min(int(volume) or 1, position)], computed from the period volume
    as recorded (not scaled by [volume_scale]); the realized P&L recorded
    for the trade is (trade price - average cost basis) x fill size; cost
    basis and position are reduced proportionally to the fill size; and
    when the period volume equals the fill size, cash increases by
    exactly fill size x trade price x (1 - fee fraction - friction
    fraction). *)
Theorem sell_fill_accounting (self : Backtester) (st st' : LoopState)
    (row : Series) (ask : pyfloat) :
  sell_executes self st row ask = true ->
  sell_block self st row ask = Some st' ->
  exists n,
    py_int (get (fill_volume row) (lit 1 1)) = Some n /\
    let size := Z.min (or_1 n) (position st) in
    position st' = (position st - size)%Z /\
    trade_pnls st' =
      trade_pnls st ++
      [(get (fill_price row) NaN - cost_basis st / of_int (position st))
       * of_int size] /\
    cost_basis st' =
      cost_basis st - cost_basis st / of_int (position st) * of_int size /\
    (get (fill_volume row) (lit 1 1) = of_int size -> 1 <= size ->
     cash st' =
       cash st + of_int size * get (fill_price row) NaN
                 * (lit 1 1 - fee_bps (config self) / lit 10000 1
                            - friction_bps (config self) / lit 10000 1)).
Proof.
  unfold sell_executes, sell_block. intros Hx Hb. rewrite Hx in Hb.
  apply andb_prop in Hx. destruct Hx as [Hpos _]. apply Z.gtb_lt in Hpos.
  destruct (py_int (get (fill_volume row) (lit 1 1))) as [n|] eqn:En;
    [|discriminate].
  injection Hb as <-. exists n. split; [reflexivity|].
  rewrite <- fee_mult_fractions.
  cbn [position trade_pnls cost_basis cash].
  replace (Z.max (position st) 1) with (position st) by lia.
  repeat split.
  intros Ev Hs. rewrite Ev.
  replace (Z.max (Z.min (or_1 n) (position st)) 1)
    with (Z.min (or_1 n) (position st)) by lia.
  f_equal.
  set (size := Z.min (or_1 n) (position st)) in *.
  assert (Hnz : of_Z size <> 0%Qc) by (apply of_Z_neq_0; lia).
  destruct (get (fill_price row) NaN) as [|a], (fee_mult self) as [|b];
    simpl; try reflexivity.
  f_equal. field. exact Hnz.
Qed.

Lemma sell_fill_accounting_witness :
  match sell_block (ingest (__init__ None) three_periods)
                   (state_after (__init__ None) three_periods 1)
                   (row_at (__init__ None) three_periods 1)
                   (lit 100 1) with
  | Some st' =>
      exists n,
        py_int (get (fill_volume (row_at (__init__ None) three_periods 1)) (lit 1 1))
        = Some n /\
        position st'
        = (position (state_after (__init__ None) three_periods 1)
           - Z.min (or_1 n) (position (state_after (__init__ None) three_periods 1)))%Z
  | None => False
  end.
Proof.
  destruct (sell_block (ingest (__init__ None) three_periods)
                       (state_after (__init__ None) three_periods 1)
                       (row_at (__init__ None) three_periods 1)
                       (lit 100 1)) as [s|] eqn:Hb.
  - destruct (sell_fill_accounting
                (ingest (__init__ None) three_periods)
                (state_after (__init__ None) three_periods 1) s
                (row_at (__init__ None) three_periods 1)
                (lit 100 1))
      as (n & Hn & Hp & _).
    + vm_compute. reflexivity.
    + exact Hb.
    + exists n. split; [exact Hn | exact Hp].
  - vm_compute in Hb. discriminate Hb.
Defined.

(** C6 as stated fails: with the volume scale doubled, a period of
    three prints sells three of the five units held, where the scaled
    volume (six) capped by the position gives five. *)
Lemma sell_size_counterexample :
  sell_executes (ingest (__init__ (Some doubled_volume_scale)) three_periods)
                (state_after (__init__ (Some doubled_volume_scale)) three_periods 1)
                (row_at (__init__ (Some doubled_volume_scale)) three_periods 1)
                (lit 100 1) = true
  /\ position (state_after (__init__ (Some doubled_volume_scale)) three_periods 1) = 5
  /\ option_map position
       (sell_block (ingest (__init__ (Some doubled_volume_scale)) three_periods)
                   (state_after (__init__ (Some doubled_volume_scale)) three_periods 1)
                   (row_at (__init__ (Some doubled_volume_scale)) three_periods 1)
                   (lit 100 1)) = Some (5 - 3)%Z
  /\ fill_size_spec (ingest (__init__ (Some doubled_volume_scale)) three_periods)
                    (row_at (__init__ (Some doubled_volume_scale)) three_periods 1) 5
     = Some 5
  /\ option_map position
       (sell_block (ingest (__init__ (Some doubled_volume_scale)) three_periods)
                   (state_after (__init__ (Some doubled_volume_scale)) three_periods 1)
                   (row_at (__init__ (Some doubled_volume_scale)) three_periods 1)
                   (lit 100 1))
     <> option_map (fun size => (5 - size)%Z)
          (fill_size_spec (ingest (__init__ (Some doubled_volume_scale)) three_periods)
                          (row_at (__init__ (Some doubled_volume_scale)) three_periods 1)
                          5).
Proof.
  repeat split; try (vm_compute; reflexivity).
  vm_compute. discriminate.
Qed.

(** The cash credit of a sell follows the period volume, not the fill
    size: holding one unit, a period of three prints at 105 sells one
    unit and credits three times the net price. *)
Lemma sell_credit_follows_volume :
  position (state_after (__init__ None) one_then_three 1) = 1
  /\ option_map position
       (sell_block (ingest (__init__ None) one_then_three)
                   (state_after (__init__ None) one_then_three 1)
                   (row_at (__init__ None) one_then_three 1)
                   (lit 100 1)) = Some 0
  /\ option_map cash
       (sell_block (ingest (__init__ None) one_then_three)
                   (state_after (__init__ None) one_then_three 1)
                   (row_at (__init__ None) one_then_three 1)
                   (lit 100 1))
     = Some (cash (state_after (__init__ None) one_then_three 1)
             + lit 3 1 * lit 105 1 * fee_mult (ingest (__init__ None) one_then_three))
  /\ option_map cash
       (sell_block (ingest (__init__ None) one_then_three)
                   (state_after (__init__ None) one_then_three 1)
                   (row_at (__init__ None) one_then_three 1)
                   (lit 100 1))
     <> Some (cash (state_after (__init__ None) one_then_three 1)
              + lit 1 1 * lit 105 1 * fee_mult (ingest (__init__ None) one_then_three)).
Proof.
  split; [vm_compute; reflexivity|].
  split; [vm_compute; reflexivity|].
  split.
  - destruct (sell_block _ _ _ _) as [st|] eqn:E; [|vm_compute in E; discriminate E].
    simpl. f_equal. apply feqb_eq.
    apply (f_equal (option_map cash)) in E. simpl in E.
    injection E as <-. vm_compute. reflexivity.
  - destruct (sell_block _ _ _ _) as [st|] eqn:E; [|vm_compute in E; discriminate E].
    simpl. intros H. injection H as H. revert H. apply feqb_neq.
    apply (f_equal (option_map cash)) in E. simpl in E.
    injection E as <-. vm_compute. reflexivity.
Qed.

(** C7 (as amended). A buy fill executes only when the position is
    below the limit, the bid fills, and cash is at least the unit cost
    times the period volume as recorded; this covers the resulting debit
    whenever that volume is at least one and the unit cost is not
    negative.  When it executes, the fill size is [min(int(volume) or 1,
    position limit - position)], computed from the period volume as
    recorded (not scaled by [volume_scale]); cash decreases by exactly
    fill size x trade price x (1 - fee fraction - friction fraction),
    cost basis increases by the same amount, and position increases by
    the fill size. *)
Theorem buy_fill_accounting (self : Backtester) (st : LoopState) (row : Series)
    (bid : pyfloat) :
  (buy_executes self st row bid = false -> buy_block self st row bid = Some st)
  /\
  (buy_executes self st row bid = true ->
   exists n st',
     py_int (get (fill_volume row) (lit 1 1)) = Some n /\
     buy_block self st row bid = Some st' /\
     let size := Z.min (or_1 n) (position_limit (config self) - position st) in
     let debit :=
       of_int size * get (fill_price row) NaN
       * (lit 1 1 - fee_bps (config self) / lit 10000 1
                  - friction_bps (config self) / lit 10000 1) in
     position st' = (position st + size)%Z /\
     cash st' = cash st - debit /\
     cost_basis st' = cost_basis st + debit /\
     ((lit 1 1 <=? get (fill_volume row) (lit 1 1)) = true ->
      (lit 0 1 <=? get (fill_price row) NaN * fee_mult self) = true ->
      (cash st >=? debit) = true)).
Proof.
  unfold buy_executes, buy_block. split.
  - intros H.
    destruct ((position st <? position_limit (config self))%Z
              && simulate_fill self "buy" bid row); [|reflexivity].
    simpl in H. rewrite H. reflexivity.
  - intros H. apply andb_prop in H. destruct H as [H Hc]. rewrite H, Hc.
    rewrite <- fee_mult_fractions.
    destruct (get (fill_volume row) (lit 1 1)) as [|q] eqn:Ev.
    { destruct (get (fill_price row) NaN * fee_mult self), (cash st);
        discriminate Hc. }
    simpl py_int. exists (trunc q). eexists.
    split; [reflexivity|]. split; [reflexivity|].
    cbn [position cash cost_basis].
    set (size := Z.min (or_1 (trunc q)) (position_limit (config self) - position st)).
    rewrite <- (size_times_unit_cost size (get (fill_price row) NaN) (fee_mult self)).
    repeat split.
    intros H1 H0.
    destruct (get (fill_price row) NaN * fee_mult self) as [|c]; [discriminate H0|].
    destruct (cash st) as [|m]; [discriminate Hc|].
    simpl in H1, H0, Hc |- *. apply Qc_leb_le in H1, H0, Hc. apply Qc_leb_le.
    change (ratio 1 1) with 1%Qc in H1. change (ratio 0 1) with 0%Qc in H0.
    assert (Hq : (0 <= q)%Qc).
    { eapply Qcle_trans; [|exact H1]. apply Qc_leb_le. reflexivity. }
    assert (Hs : (of_Z size <= q)%Qc).
    { eapply Qcle_trans; [|apply (trunc_le q Hq)].
      apply of_Z_le. pose proof (trunc_ge_1 q H1).
      unfold size, or_1. destruct (Z.eqb_spec (trunc q) 0); lia. }
    eapply Qcle_trans; [|exact Hc].
    rewrite (Qcmult_comm c (of_Z size)), (Qcmult_comm c q).
    apply Qcmult_le_compat_r; assumption.
Qed.

Lemma buy_fill_accounting_witness :
  exists n st',
    py_int (get (fill_volume (row_at (__init__ None) three_periods 0)) (lit 1 1))
    = Some n /\
    buy_block (ingest (__init__ None) three_periods)
              (initial_state (ingest (__init__ None) three_periods))
              (row_at (__init__ None) three_periods 0)
              (lit 1078 10) = Some st' /\
    position st' = (0 + Z.min (or_1 n) (10 - 0))%Z.
Proof.
  destruct (buy_fill_accounting
              (ingest (__init__ None) three_periods)
              (initial_state (ingest (__init__ None) three_periods))
              (row_at (__init__ None) three_periods 0)
              (lit 1078 10))
    as [_ Hx].
  destruct Hx as (n & st' & Hn & Hb & Hp & _).
  - vm_compute. reflexivity.
  - exists n, st'. split; [exact Hn|]. split; [exact Hb | exact Hp].
Defined.

(** C7 as stated fails: with the volume scale doubled, a period of
    three prints buys three units from an empty position under a limit
    of ten, where the scaled volume (six) capped by the headroom gives
    six. *)
Lemma buy_size_counterexample :
  buy_executes (ingest (__init__ (Some doubled_volume_scale)) three_periods)
               (initial_state (ingest (__init__ (Some doubled_volume_scale)) three_periods))
               (mkSeries 1 (Some (lit 100 1)) (Some (lit 3 1)) (Some (lit 110 1))
                         (Some (lit 3 1)))
               (lit 1078 10) = true
  /\ option_map position
       (buy_block (ingest (__init__ (Some doubled_volume_scale)) three_periods)
                  (initial_state (ingest (__init__ (Some doubled_volume_scale)) three_periods))
                  (mkSeries 1 (Some (lit 100 1)) (Some (lit 3 1)) (Some (lit 110 1))
                         (Some (lit 3 1)))
                  (lit 1078 10)) = Some (0 + 3)%Z
  /\ fill_size_spec (ingest (__init__ (Some doubled_volume_scale)) three_periods)
                    (mkSeries 1 (Some (lit 100 1)) (Some (lit 3 1)) (Some (lit 110 1))
                         (Some (lit 3 1)))
                    (10 - 0)
     = Some 6
  /\ option_map position
       (buy_block (ingest (__init__ (Some doubled_volume_scale)) three_periods)
                  (initial_state (ingest (__init__ (Some doubled_volume_scale)) three_periods))
                  (mkSeries 1 (Some (lit 100 1)) (Some (lit 3 1)) (Some (lit 110 1))
                         (Some (lit 3 1)))
                  (lit 1078 10))
     <> option_map (fun size => (0 + size)%Z)
          (fill_size_spec (ingest (__init__ (Some doubled_volume_scale)) three_periods)
                          (mkSeries 1 (Some (lit 100 1)) (Some (lit 3 1))
                                    (Some (lit 110 1)) (Some (lit 3 1)))
                          (10 - 0)).
Proof.
  repeat split; try (vm_compute; reflexivity).
  vm_compute. discriminate.
Qed.

(** The cash guard of a buy compares with the period volume, not the
    fill size: with 60 in cash, half a print at 100 passes the guard
    (60 >= 49.125), one unit is bought, and cash ends below zero. *)
Lemma buy_debit_can_exceed_cash :
  buy_executes (ingest (__init__ (Some sixty_in_cash)) half_a_print)
               (initial_state (ingest (__init__ (Some sixty_in_cash)) half_a_print))
               (row_at (__init__ (Some sixty_in_cash)) half_a_print 0)
               (lit 1078 10) = true
  /\ option_map position
       (buy_block (ingest (__init__ (Some sixty_in_cash)) half_a_print)
                  (initial_state (ingest (__init__ (Some sixty_in_cash)) half_a_print))
                  (row_at (__init__ (Some sixty_in_cash)) half_a_print 0)
                  (lit 1078 10)) = Some 1
  /\ option_map (fun st => cash st <? lit 0 1)
       (buy_block (ingest (__init__ (Some sixty_in_cash)) half_a_print)
                  (initial_state (ingest (__init__ (Some sixty_in_cash)) half_a_print))
                  (row_at (__init__ (Some sixty_in_cash)) half_a_print 0)
                  (lit 1078 10)) = Some true.
Proof.
  repeat split; vm_compute; reflexivity.
Qed.

Lemma position_within_limit_witness :
  exists st,
    loop (ingested (__init__ None) two_trades)
         (ingest (__init__ None) two_trades)
         (initial_state (ingest (__init__ None) two_trades))
         (firstn 2 (records (ingested (__init__ None) two_trades))) = Some st /\
    0 <= position st <= position_limit (config (__init__ None)).
Proof.
  apply (position_within_limit (__init__ None) two_trades
           (ingested (__init__ None) two_trades)).
  - intros v [<-|[<-|[]]] _; reflexivity.
  - simpl. lia.
  - reflexivity.
  - reflexivity.
Defined.

End Backtester.

(** ** Price cleaning ([src/python/data_processor.py]) *)

Module DataProcessor.

Import Num.
Local Open Scope Qc_scope.

(** The first filter of [clean_sold_prices]:
    [p[np.isfinite(p) & (p >= min_price)]]. *)
Fixpoint finite_at_least (min_price : Qc) (prices : list pyfloat) : list Qc :=
  match prices with
  | [] => []
  | NaN :: rest => finite_at_least min_price rest
  | Fin x :: rest =>
      if Qc_leb min_price x then x :: finite_at_least min_price rest
      else finite_at_least min_price rest
  end.

(** The last filter: [p[(p >= low) & (p <= high)]]. *)
Definition within (low high : Qc) (x : Qc) : bool :=
  Qc_leb low x && Qc_leb x high.

Section Cleaning.

(** [np.sqrt] on floats. *)
Variable np_sqrt : Qc -> Qc.

(** The bounds computed from an array of at least three prices. *)
Definition bounds (p : list Qc) (min_price iqr_mult percentile_floor : Qc)
  : option (Qc * Qc) :=
  match np_percentile p (of_Z 25), np_percentile p (of_Z 75) with
  | Some q1, Some q3 =>
      let iqr := q3 - q1 in
      let iqr :=
        if Qc_leb iqr 0
        then (if Qc_eqb (np_std np_sqrt p) 0 then ratio 1 1000000
              else np_std np_sqrt p)
        else iqr in
      match np_percentile p percentile_floor with
      | Some floor_value =>
          let low :=
            np_maximum (np_maximum min_price floor_value) (q1 - iqr_mult * iqr) in
          let high := q3 + iqr_mult * iqr in
          Some (low, high)
      | None => None
      end
  | _, _ => None
  end.

(** [clean_sold_prices(prices, min_price, iqr_mult, percentile_floor)];
    the defaults are 5, 1.5 and 1. *)
Definition clean_sold_prices (prices : list pyfloat)
    (min_price iqr_mult percentile_floor : Qc) : option (list pyfloat) :=
  let p := finite_at_least min_price prices in
  if (List.length p <=? 2)%nat then Some (map Fin p)
  else
    match bounds p min_price iqr_mult percentile_floor with
    | Some (low, high) => Some (map Fin (filter (within low high) p))
    | None => None
    end.

(** Applying the step twice. *)
Definition clean_twice (prices : list pyfloat)
    (min_price iqr_mult percentile_floor : Qc) : option (list pyfloat) :=
  match clean_sold_prices prices min_price iqr_mult percentile_floor with
  | Some once => clean_sold_prices once min_price iqr_mult percentile_floor
  | None => None
  end.

(** *** Facts about the cleaning step *)

Lemma finite_at_least_bound (min_price : Qc) (prices : list pyfloat) :
  Forall (fun x => Qc_leb min_price x = true) (finite_at_least min_price prices).
Proof.
  induction prices as [|[|x] rest IH]; simpl; auto.
  destruct (Qc_leb min_price x) eqn:E; auto.
Qed.

Lemma finite_at_least_fixed (min_price : Qc) (p : list Qc) :
  Forall (fun x => Qc_leb min_price x = true) p ->
  finite_at_least min_price (map Fin p) = p.
Proof.
  induction 1 as [|x p Hx _ IH]; simpl; [reflexivity|].
  rewrite Hx, IH. reflexivity.
Qed.

Lemma Forall_filter {A : Type} (P : A -> Prop) (f : A -> bool) (l : list A) :
  Forall P l -> Forall P (filter f l).
Proof.
  induction 1 as [|x l Hx _ IH]; simpl; auto.
  destruct (f x); auto.
Qed.

Lemma filter_all {A : Type} (l : list A) : filter (fun _ => true) l = l.
Proof. induction l as [|x l IH]; simpl; congruence. Qed.

(** What one application returns: finite prices, none below the floor. *)
Lemma clean_sold_prices_shape (prices once : list pyfloat)
    (min_price iqr_mult percentile_floor : Qc) :
  clean_sold_prices prices min_price iqr_mult percentile_floor = Some once ->
  exists p, once = map Fin p /\ Forall (fun x => Qc_leb min_price x = true) p.
Proof.
  unfold clean_sold_prices. intros H.
  pose proof (finite_at_least_bound min_price prices) as Hb.
  destruct (List.length (finite_at_least min_price prices) <=? 2)%nat.
  - injection H as <-. eauto.
  - destruct (bounds _ _ _ _) as [[low high]|]; [|discriminate].
    injection H as <-. eexists. split; [reflexivity|].
    apply Forall_filter. exact Hb.
Qed.

(** C8 (as amended). For every array of prices, a second application
    of the cleaning step keeps only prices the first application kept,
    in the same order, and removes no further price when at most two
    prices remain after the first.  (With three or more prices remaining
    it can remove further ones: the 1st-percentile bound lies above a
    unique minimum.) *)
Theorem clean_twice_keeps_subset (prices once twice : list pyfloat)
    (min_price iqr_mult percentile_floor : Qc) :
  clean_sold_prices prices min_price iqr_mult percentile_floor = Some once ->
  clean_sold_prices once min_price iqr_mult percentile_floor = Some twice ->
  (exists keep, twice = filter keep once) /\
  ((List.length once <= 2)%nat -> twice = once).
Proof.
  intros H1 H2.
  destruct (clean_sold_prices_shape _ _ _ _ _ H1) as (p & -> & Hp).
  unfold clean_sold_prices in H2.
  rewrite (finite_at_least_fixed min_price p Hp) in H2.
  rewrite length_map.
  destruct (List.length p <=? 2)%nat eqn:El.
  - injection H2 as <-. split; [|reflexivity].
    exists (fun _ => true). symmetry. apply filter_all.
  - split.
    + destruct (bounds p min_price iqr_mult percentile_floor) as [[low high]|];
        [|discriminate].
      injection H2 as <-.
      exists (fun y => match y with Fin x => within low high x | NaN => false end).
      clear. induction p as [|x p IH]; simpl; [reflexivity|].
      destruct (within low high x); simpl; congruence.
    + intros Hl. apply Nat.leb_gt in El. lia.
Qed.

End Cleaning.

Lemma clean_twice_keeps_subset_witness :
  (exists keep,
     [Fin (of_Z 30); Fin (of_Z 40)]
     = filter keep [Fin (of_Z 20); Fin (of_Z 30); Fin (of_Z 40)]) /\
  ((List.length [Fin (of_Z 20); Fin (of_Z 30); Fin (of_Z 40)] <= 2)%nat ->
   [Fin (of_Z 30); Fin (of_Z 40)] = [Fin (of_Z 20); Fin (of_Z 30); Fin (of_Z 40)]).
Proof.
  apply (clean_twice_keeps_subset newton_sqrt
           [Fin (of_Z 10); Fin (of_Z 20); Fin (of_Z 30); Fin (of_Z 40)]
           [Fin (of_Z 20); Fin (of_Z 30); Fin (of_Z 40)]
           [Fin (of_Z 30); Fin (of_Z 40)]
           (of_Z 5) (ratio 3 2) (of_Z 1)).
  - vm_compute. reflexivity.
  - vm_compute. reflexivity.
Defined.

(** C8 as stated fails: from the prices 10, 20, 30, 40 (floor 5,
    multiplier 1.5, percentile 1) one application keeps 20, 30, 40 and
    a second one keeps only 30, 40. *)
Lemma cleaning_not_idempotent :
  clean_sold_prices newton_sqrt
    [Fin (of_Z 10); Fin (of_Z 20); Fin (of_Z 30); Fin (of_Z 40)]
    (of_Z 5) (ratio 3 2) (of_Z 1)
  = Some [Fin (of_Z 20); Fin (of_Z 30); Fin (of_Z 40)]
  /\ clean_twice newton_sqrt
       [Fin (of_Z 10); Fin (of_Z 20); Fin (of_Z 30); Fin (of_Z 40)]
       (of_Z 5) (ratio 3 2) (of_Z 1)
     = Some [Fin (of_Z 30); Fin (of_Z 40)]
  /\ clean_twice newton_sqrt
       [Fin (of_Z 10); Fin (of_Z 20); Fin (of_Z 30); Fin (of_Z 40)]
       (of_Z 5) (ratio 3 2) (of_Z 1)
     <> clean_sold_prices newton_sqrt
          [Fin (of_Z 10); Fin (of_Z 20); Fin (of_Z 30); Fin (of_Z 40)]
          (of_Z 5) (ratio 3 2) (of_Z 1).
Proof.
  assert (E1 : clean_sold_prices newton_sqrt
                 [Fin (of_Z 10); Fin (of_Z 20); Fin (of_Z 30); Fin (of_Z 40)]
                 (of_Z 5) (ratio 3 2) (of_Z 1)
               = Some [Fin (of_Z 20); Fin (of_Z 30); Fin (of_Z 40)])
    by (vm_compute; reflexivity).
  assert (E2 : clean_twice newton_sqrt
                 [Fin (of_Z 10); Fin (of_Z 20); Fin (of_Z 30); Fin (of_Z 40)]
                 (of_Z 5) (ratio 3 2) (of_Z 1)
               = Some [Fin (of_Z 30); Fin (of_Z 40)])
    by (vm_compute; reflexivity).
  split; [exact E1|]. split; [exact E2|].
  rewrite E1, E2. discriminate.
Qed.

End DataProcessor.

(** ** The portfolio Monte Carlo engine ([src/python/simulator.py]) *)

Module Simulator.

Import Num.
Local Open Scope Qc_scope.

(** One entry of [sku_params]. *)
Record SkuParams : Type := mkSku {
  mu : Qc;
  sigma : Qc;
  liquidity_score : Qc
}.

(** [PortfolioSimulatorConfig].  The dictionary [sku_params] is the
    list of its items in key order (the keys of a dictionary are
    distinct, so the value looked up for the i-th key is the i-th
    value). *)
Record PortfolioSimulatorConfig : Type := mkPortfolio {
  initial_capital : Qc;
  num_days : Z;
  num_paths : Z;
  sku_params : list (string * SkuParams);
  s0_per_sku : option (list (string * Qc));
  market_beta : Qc;
  volume_threshold : Qc;
  staleness_ruin_days : Z;
  staleness_haircut : Qc;
  ruin_pct : Qc;
  seed : option Z
}.

(** The same configuration with another [sku_params]. *)
Definition with_sku_params (config : PortfolioSimulatorConfig)
    (l : list (string * SkuParams)) : PortfolioSimulatorConfig :=
  {| initial_capital := initial_capital config;
     num_days := num_days config;
     num_paths := num_paths config;
     sku_params := l;
     s0_per_sku := s0_per_sku config;
     market_beta := market_beta config;
     volume_threshold := volume_threshold config;
     staleness_ruin_days := staleness_ruin_days config;
     staleness_haircut := staleness_haircut config;
     ruin_pct := ruin_pct config;
     seed := seed config |}.

(** [d.get(key, default)]. *)
Fixpoint dict_get (d : list (string * Qc)) (key : string) (default : Qc) : Qc :=
  match d with
  | [] => default
  | (k, v) :: rest => if String.eqb k key then v else dict_get rest key default
  end.

(** The fallback of lines 63-65. *)
Definition effective_sku_params (config : PortfolioSimulatorConfig)
  : list (string * SkuParams) :=
  match sku_params config with
  | [] => [("Default"%string, mkSku (ratio 5 100) (ratio 35 100) (ratio 5 10))]
  | _ :: _ => sku_params config
  end.

Definition labels (config : PortfolioSimulatorConfig) : list string :=
  map fst (effective_sku_params config).

Definition mu_arr (config : PortfolioSimulatorConfig) : list Qc :=
  map (fun item => mu (snd item)) (effective_sku_params config).

(** [np.maximum(sigma_arr, 1e-6)]. *)
Definition sigma_arr (config : PortfolioSimulatorConfig) : list Qc :=
  map (fun item => np_maximum (sigma (snd item)) (ratio 1 1000000))
      (effective_sku_params config).

Definition liq_arr (config : PortfolioSimulatorConfig) : list Qc :=
  map (fun item => liquidity_score (snd item)) (effective_sku_params config).

(** Lines 77-80: the given dictionary is read when it is not empty. *)
Definition s0 (config : PortfolioSimulatorConfig) : list Qc :=
  match s0_per_sku config with
  | Some ((_ :: _) as d) =>
      map (fun s => dict_get d s (of_Z 100)) (labels config)
  | _ => repeat (of_Z 100) (List.length (labels config))
  end.

Definition shares (config : PortfolioSimulatorConfig) : list Qc :=
  let K := of_Z (Z.of_nat (List.length (labels config))) in
  let initial_per_sku := initial_capital config / K in
  map (fun s => initial_per_sku / s) (s0 config).

Definition dt : Qc := 1 / of_Z 252.

(** [np.cumsum(x, axis=1)] on the (T, K) slice of one path. *)
Fixpoint cumsum_from (acc : list Qc) (rows : list (list Qc)) : list (list Qc) :=
  match rows with
  | [] => []
  | r :: rest =>
      let acc' := map2 Qcplus acc r in
      acc' :: cumsum_from acc' rest
  end.

Definition cumsum (rows : list (list Qc)) : list (list Qc) :=
  match rows with
  | [] => []
  | r :: rest => r :: cumsum_from r rest
  end.

(** The values along the time axis for asset [k] in one path. *)
Definition column {A : Type} (d : A) (k : nat) (rows : list (list A)) : list A :=
  map (fun row => nth k row d) rows.

(** [np.argmin]: the index of the first minimum. *)
Fixpoint argmin_from (best : Qc) (best_i i : nat) (l : list Qc) : nat :=
  match l with
  | [] => best_i
  | x :: rest =>
      if Qc_ltb x best then argmin_from x i (S i) rest
      else argmin_from best best_i (S i) rest
  end.

Definition argmin (l : list Qc) : nat :=
  match l with
  | [] => 0%nat
  | x :: rest => argmin_from x 0 1 rest
  end.

(** [np.min]. *)
Definition np_min (l : list Qc) : Qc :=
  match l with
  | [] => 0
  | x :: rest => fold_left np_minimum rest x
  end.

(** [below.astype(np.float64)] on one entry. *)
Definition as_float (b : bool) : Qc := if b then 1 else 0.

(** [np.mean] of a Boolean array. *)
Definition mean_of_flags (flags : list bool) : Qc := np_mean (map as_float flags).

(** The dictionary returned by [run_portfolio_monte_carlo]. *)
Record Result : Type := mkResult {
  r_final_values : list Qc;
  r_mean : Qc;
  r_std : Qc;
  r_p5 : Qc;
  r_p50 : Qc;
  r_p95 : Qc;
  probability_of_ruin : Qc;
  probability_of_ruin_staleness : Qc;
  staleness_days_threshold : Z;
  num_skus : nat;
  sku_labels : list string
}.

(** The arrays of one run that the properties speak of: axis 0 is the
    path, axis 1 the step (where present), the last axis the asset. *)
Record Arrays : Type := mkArrays {
  Z_market : list (list Qc);
  Z_idio : list (list (list Qc));
  Z_vol : list (list (list Qc));
  end_prices : list (list Qc);
  volume : list (list (list Qc));
  days_stale_at_end : list (list Z);
  is_stale : list (list bool);
  haircut : list (list Qc);
  value_per_sku : list (list Qc);
  final_values : list Qc;
  ruin_paths : list bool;
  had_stale : list bool
}.

(** *** The trailing run, in the words of the specification *)

(** The length of the run of consecutive below-threshold days that ends
    exactly at the final step: the run of the later days, extended by
    the first day when that run covers all later days and the first day
    is below threshold too. *)
Fixpoint trailing_run (below : list bool) : nat :=
  match below with
  | [] => 0
  | b :: rest =>
      if b && (trailing_run rest =? List.length rest)%nat
      then S (trailing_run rest)
      else trailing_run rest
  end.

(** The run of [true] entries at the head of a list. *)
Fixpoint leading_run (l : list bool) : nat :=
  match l with
  | true :: rest => S (leading_run rest)
  | _ => 0
  end.

(** The entry of [sku_params] with its volatility raised to the floor. *)
Definition floor_sigma (item : string * SkuParams) : string * SkuParams :=
  (fst item,
   mkSku (mu (snd item)) (np_maximum (sigma (snd item)) (ratio 1 1000000))
         (liquidity_score (snd item))).

Section Engine.

(** The generator of [np.random.default_rng]: its state, its seeding,
    and one draw of [standard_normal]. *)
Variable Generator : Type.
Variable default_rng : Z -> Generator.
Variable next_normal : Generator -> Qc * Generator.

(** [np.exp] and [np.sqrt] on floats. *)
Variable np_exp : Qc -> Qc.
Variable np_sqrt : Qc -> Qc.

(** [rng.standard_normal(shape)] fills its array in row-major order,
    one draw after the other. *)
Fixpoint draw_vector (n : nat) (rng : Generator) : list Qc * Generator :=
  match n with
  | O => ([], rng)
  | S n' =>
      let (x, rng1) := next_normal rng in
      let (xs, rng2) := draw_vector n' rng1 in
      (x :: xs, rng2)
  end.

Fixpoint draw_matrix (rows cols : nat) (rng : Generator)
  : list (list Qc) * Generator :=
  match rows with
  | O => ([], rng)
  | S rows' =>
      let (x, rng1) := draw_vector cols rng in
      let (xs, rng2) := draw_matrix rows' cols rng1 in
      (x :: xs, rng2)
  end.

Fixpoint draw_cube (P T K : nat) (rng : Generator)
  : list (list (list Qc)) * Generator :=
  match P with
  | O => ([], rng)
  | S P' =>
      let (x, rng1) := draw_matrix T K rng in
      let (xs, rng2) := draw_cube P' T K rng1 in
      (x :: xs, rng2)
  end.

(** Lines 89-90 on one path: the blended shocks [Z]. *)
Definition blend (config : PortfolioSimulatorConfig)
    (zm : list Qc) (zi : list (list Qc)) : list (list Qc) :=
  let beta := np_clip (market_beta config) 0 1 in
  map2 (fun m row => map (fun i => beta * m + np_sqrt (1 - beta * beta) * i) row)
       zm zi.

(** Lines 93-95 on one path: the log returns. *)
Definition log_returns (config : PortfolioSimulatorConfig)
    (z : list (list Qc)) : list (list Qc) :=
  let sqrt_dt := np_sqrt dt in
  let drift :=
    map2 (fun m s => (m - ratio 5 10 * (s * s)) * dt)
         (mu_arr config) (sigma_arr config) in
  let vol := map (fun s => s * sqrt_dt) (sigma_arr config) in
  map (fun row => map2 Qcplus drift (map2 Qcmult vol row)) z.

(** Lines 96-98 and 114 on one path: the prices [S] and [S[:, -1, :]]. *)
Definition prices (config : PortfolioSimulatorConfig)
    (zm : list Qc) (zi : list (list Qc)) : list (list Qc) :=
  s0 config ::
  map (fun c => map2 (fun s e => s * np_exp e) (s0 config) c)
      (cumsum (log_returns config (blend config zm zi))).

Definition path_end_prices (config : PortfolioSimulatorConfig)
    (zm : list Qc) (zi : list (list Qc)) : list Qc :=
  last (prices config zm zi) (s0 config).

(** Lines 101-102 on one path: the simulated volume. *)
Definition path_volume (config : PortfolioSimulatorConfig)
    (zv : list (list Qc)) : list (list Qc) :=
  map (fun row => map2 (fun l z => l * np_exp (ratio 3 10 * z)) (liq_arr config) row)
      zv.

(** Lines 105-109 on one path. *)
Definition path_below (config : PortfolioSimulatorConfig)
    (zv : list (list Qc)) : list (list bool) :=
  map (map (fun v => Qc_ltb v (volume_threshold config))) (path_volume config zv).

Definition flipped_below (config : PortfolioSimulatorConfig)
    (zv : list (list Qc)) : list (list Qc) :=
  rev (map (map as_float) (path_below config zv)).

Definition path_days_stale (config : PortfolioSimulatorConfig)
    (zv : list (list Qc)) : list Z :=
  let K := List.length (labels config) in
  let first_above_idx :=
    map (fun k => argmin (column 0 k (flipped_below config zv))) (seq 0 K) in
  let all_below :=
    map (fun k => Qc_eqb (np_min (column 0 k (flipped_below config zv))) 1)
        (seq 0 K) in
  map2 (fun (b : bool) i => if b then num_days config else Z.of_nat i)
       all_below first_above_idx.

(** Lines 110-111 on one path. *)
Definition path_is_stale (config : PortfolioSimulatorConfig)
    (zv : list (list Qc)) : list bool :=
  map (fun d => (staleness_ruin_days config <=? d)%Z) (path_days_stale config zv).

Definition path_haircut (config : PortfolioSimulatorConfig)
    (zv : list (list Qc)) : list Qc :=
  map (fun (b : bool) => if b then staleness_haircut config else 1)
      (path_is_stale config zv).

(** Line 115 on one path: [shares * end_prices * haircut]. *)
Definition path_value_per_sku (config : PortfolioSimulatorConfig)
    (zm : list Qc) (zi zv : list (list Qc)) : list Qc :=
  map2 Qcmult (map2 Qcmult (shares config) (path_end_prices config zm zi))
       (path_haircut config zv).

(** Line 116 on one path: the sum over the assets. *)
Definition path_final_value (config : PortfolioSimulatorConfig)
    (zm : list Qc) (zi zv : list (list Qc)) : Qc :=
  np_sum (path_value_per_sku config zm zi zv).

(** Lines 87, 88 and 101: the three calls of [standard_normal], in the
    order in which they consume the generator. *)
Definition draw_shocks (config : PortfolioSimulatorConfig) (rng : Generator)
  : list (list Qc) * list (list (list Qc)) * list (list (list Qc)) :=
  let P := Z.to_nat (num_paths config) in
  let T := Z.to_nat (num_days config) in
  let K := List.length (labels config) in
  let (zm, rng1) := draw_matrix P T rng in
  let (zi, rng2) := draw_cube P T K rng1 in
  let (zv, rng3) := draw_cube P T K rng2 in
  (zm, zi, zv).

(** The arrays computed from the three arrays of shocks. *)
Definition arrays_of (config : PortfolioSimulatorConfig)
    (zm : list (list Qc)) (zi zv : list (list (list Qc))) : Arrays :=
  let final := map2 (fun m iv => path_final_value config m (fst iv) (snd iv))
                    zm (combine zi zv) in
  let ruin_threshold := initial_capital config * ruin_pct config in
  {| Z_market := zm;
     Z_idio := zi;
     Z_vol := zv;
     end_prices := map2 (path_end_prices config) zm zi;
     volume := map (path_volume config) zv;
     days_stale_at_end := map (path_days_stale config) zv;
     is_stale := map (path_is_stale config) zv;
     haircut := map (path_haircut config) zv;
     value_per_sku :=
       map2 (fun m iv => path_value_per_sku config m (fst iv) (snd iv))
            zm (combine zi zv);
     final_values := final;
     ruin_paths := map (fun v => Qc_ltb v ruin_threshold) final;
     had_stale := map (existsb (fun b => b)) (map (path_is_stale config) zv) |}.

(** The arrays of a run drawn from the generator state [rng]. *)
Definition arrays (config : PortfolioSimulatorConfig) (rng : Generator) : Arrays :=
  let '(zm, zi, zv) := draw_shocks config rng in
  arrays_of config zm zi zv.

(** [run_portfolio_monte_carlo(config)].  [entropy] is what
    [default_rng(None)] takes from the operating system.  [None] is an
    exception: a negative dimension in [standard_normal], [np.argmin]
    along an empty time axis, [np.percentile] of an empty array. *)
Definition run_portfolio_monte_carlo (entropy : Z)
    (config : PortfolioSimulatorConfig) : option Result :=
  let rng :=
    default_rng (match seed config with Some s => s | None => entropy end) in
  if (num_paths config <? 0)%Z || (num_days config <? 0)%Z then None
  else if (num_days config =? 0)%Z then None
  else
    let a := arrays config rng in
    match np_percentile (final_values a) (of_Z 5),
          np_percentile (final_values a) (of_Z 50),
          np_percentile (final_values a) (of_Z 95) with
    | Some p5, Some p50, Some p95 =>
        Some {| r_final_values := final_values a;
                r_mean := np_mean (final_values a);
                r_std := np_std np_sqrt (final_values a);
                r_p5 := p5;
                r_p50 := p50;
                r_p95 := p95;
                probability_of_ruin := mean_of_flags (ruin_paths a);
                probability_of_ruin_staleness :=
                  mean_of_flags (map2 andb (ruin_paths a) (had_stale a));
                staleness_days_threshold := staleness_ruin_days config;
                num_skus := List.length (labels config);
                sku_labels := labels config |}
    | _, _, _ => None
    end.

(** *** Facts about flip, argmin and min *)

Lemma leading_run_le (l : list bool) : (leading_run l <= List.length l)%nat.
Proof. induction l as [|[|] l IH]; simpl; lia. Qed.

Lemma leading_run_all (l : list bool) :
  forallb (fun b => b) l = true <-> leading_run l = List.length l.
Proof.
  induction l as [|[|] l IH]; simpl.
  - tauto.
  - rewrite IH. split; [congruence|]. intros H. injection H as H. exact H.
  - split; discriminate.
Qed.

Lemma leading_run_snoc (l : list bool) (b : bool) :
  leading_run (l ++ [b]) =
  if b && (leading_run l =? List.length l)%nat then S (leading_run l)
  else leading_run l.
Proof.
  induction l as [|[|] l IH]; simpl.
  - destruct b; reflexivity.
  - rewrite IH. destruct (b && (leading_run l =? List.length l)%nat); reflexivity.
  - rewrite andb_false_r. reflexivity.
Qed.

Lemma trailing_run_rev (below : list bool) :
  trailing_run below = leading_run (rev below).
Proof.
  induction below as [|b rest IH]; simpl; [reflexivity|].
  rewrite leading_run_snoc, length_rev, IH. reflexivity.
Qed.

Lemma trailing_run_last (below : list bool) :
  last below true = false -> trailing_run below = 0%nat.
Proof.
  induction below as [|b rest IH]; [discriminate|].
  destruct rest as [|c rest].
  - simpl. intros ->. reflexivity.
  - intros H. change (last (c :: rest) true = false) in H.
    specialize (IH H). cbn [trailing_run] in *. rewrite IH.
    rewrite andb_false_r. reflexivity.
Qed.

(** The trailing run of a series that ends with exactly [n] days below
    threshold is [n], whatever came before the last day above it. *)
Lemma trailing_run_all (n : nat) : trailing_run (repeat true n) = n.
Proof.
  induction n as [|n IH]; simpl; [reflexivity|].
  rewrite IH, repeat_length, Nat.eqb_refl. reflexivity.
Qed.

Lemma trailing_run_after_gap (earlier : list bool) (n : nat) :
  trailing_run (earlier ++ false :: repeat true n) = n.
Proof.
  induction earlier as [|b earlier IH]; simpl.
  - apply trailing_run_all.
  - rewrite IH, length_app. simpl. rewrite repeat_length.
    replace (n =? List.length earlier + S n)%nat with false
      by (symmetry; apply Nat.eqb_neq; lia).
    rewrite andb_false_r. reflexivity.
Qed.

Lemma argmin_from_flags (l : list bool) :
  forall best_i i,
    argmin_from 0 best_i i (map as_float l) = best_i /\
    argmin_from 1 best_i i (map as_float l) =
      if forallb (fun b => b) l then best_i else (i + leading_run l)%nat.
Proof.
  induction l as [|[|] l IH]; intros best_i i; simpl.
  - split; reflexivity.
  - destruct (IH best_i (S i)) as [H0 H1]. split; [exact H0|].
    change (Qc_ltb 1 1) with false. cbv iota. rewrite H1.
    destruct (forallb (fun b => b) l); [reflexivity|lia].
  - destruct (IH best_i (S i)) as [H0 _]. destruct (IH i (S i)) as [H0' _].
    split; [exact H0|].
    change (Qc_ltb 0 1) with true. cbv iota. rewrite H0'. lia.
Qed.

Lemma np_min_flags (l : list bool) (b : bool) :
  fold_left np_minimum (map as_float l) (as_float b)
  = as_float (b && forallb (fun x => x) l).
Proof.
  revert b. induction l as [|x l IH]; intros b; simpl.
  - rewrite andb_true_r. reflexivity.
  - replace (np_minimum (as_float b) (as_float x)) with (as_float (b && x))
      by (destruct b, x; reflexivity).
    rewrite IH, andb_assoc. reflexivity.
Qed.

(** Flip, argmin and min along the time axis compute the leading run of
    the flipped flags. *)
Lemma days_of_flags (l : list bool) :
  l <> [] ->
  (if Qc_eqb (np_min (map as_float l)) 1 then Z.of_nat (List.length l)
   else Z.of_nat (argmin (map as_float l)))
  = Z.of_nat (leading_run l).
Proof.
  destruct l as [|b l]; [congruence|]. intros _.
  unfold np_min, argmin. cbn [map]. rewrite np_min_flags.
  destruct b.
  - cbn [andb]. destruct (argmin_from_flags l 0%nat 1%nat) as [_ H1].
    change (as_float true) with 1. rewrite H1.
    destruct (forallb (fun x => x) l) eqn:E.
    + change (Qc_eqb (as_float true) 1) with true. cbv iota.
      apply leading_run_all in E. simpl. rewrite E. reflexivity.
    + change (Qc_eqb (as_float false) 1) with false. cbv iota. reflexivity.
  - cbn [andb]. change (Qc_eqb (as_float false) 1) with false. cbv iota.
    destruct (argmin_from_flags l 0%nat 1%nat) as [H0 _].
    change (as_float false) with 0. rewrite H0. reflexivity.
Qed.

(** *** Facts about shapes and indexing *)

Lemma nth_map_in {A B : Type} (f : A -> B) (l : list A) (n : nat) (d : B) (d' : A) :
  (n < List.length l)%nat -> nth n (map f l) d = f (nth n l d').
Proof.
  intros H. rewrite (nth_indep (map f l) d (f d')) by (rewrite length_map; exact H).
  apply map_nth.
Qed.

Lemma nth_map_seq {B : Type} (f : nat -> B) (K k : nat) (d : B) :
  (k < K)%nat -> nth k (map f (seq 0 K)) d = f k.
Proof.
  intros H. rewrite (nth_map_in f (seq 0 K) k d 0%nat) by (rewrite length_seq; exact H).
  rewrite seq_nth by exact H. reflexivity.
Qed.

Lemma map2_map_map {A B C D : Type} (f : B -> C -> D) (g : A -> B) (h : A -> C)
    (l : list A) :
  map2 f (map g l) (map h l) = map (fun x => f (g x) (h x)) l.
Proof.
  unfold map2. induction l as [|x l IH]; simpl; congruence.
Qed.

Lemma length_map2 {A B C : Type} (f : A -> B -> C) (a : list A) (b : list B) :
  List.length (map2 f a b) = Nat.min (List.length a) (List.length b).
Proof. unfold map2. rewrite length_map, length_combine. reflexivity. Qed.

Lemma column_map {A B : Type} (f : A -> B) (d : A) (d' : B) (k : nat)
    (rows : list (list A)) :
  Forall (fun row => (k < List.length row)%nat) rows ->
  column d' k (map (map f) rows) = map f (column d k rows).
Proof.
  unfold column. induction 1 as [|row rows Hk _ IH]; simpl; [reflexivity|].
  rewrite IH. f_equal. apply nth_map_in. exact Hk.
Qed.

Lemma column_rev {A : Type} (d : A) (k : nat) (rows : list (list A)) :
  column d k (rev rows) = rev (column d k rows).
Proof. unfold column. apply map_rev. Qed.

Lemma length_column {A : Type} (d : A) (k : nat) (rows : list (list A)) :
  List.length (column d k rows) = List.length rows.
Proof. unfold column. apply length_map. Qed.

Lemma draw_vector_length (n : nat) (rng : Generator) :
  List.length (fst (draw_vector n rng)) = n.
Proof.
  revert rng. induction n as [|n IH]; intros rng; simpl; [reflexivity|].
  destruct (next_normal rng) as [x rng1]. specialize (IH rng1).
  destruct (draw_vector n rng1) as [xs rng2]. simpl in *. congruence.
Qed.

Lemma draw_matrix_shape (rows cols : nat) (rng : Generator) :
  List.length (fst (draw_matrix rows cols rng)) = rows /\
  Forall (fun r => List.length r = cols) (fst (draw_matrix rows cols rng)).
Proof.
  revert rng. induction rows as [|rows IH]; intros rng; simpl; [auto|].
  pose proof (draw_vector_length cols rng) as Hv.
  destruct (draw_vector cols rng) as [x rng1]. specialize (IH rng1).
  destruct (draw_matrix rows cols rng1) as [xs rng2]. simpl in *.
  destruct IH as [Hl Hf]. split; [congruence|]. constructor; assumption.
Qed.

Lemma draw_cube_shape (P T K : nat) (rng : Generator) :
  List.length (fst (draw_cube P T K rng)) = P /\
  Forall (fun m => List.length m = T /\ Forall (fun r => List.length r = K) m)
         (fst (draw_cube P T K rng)).
Proof.
  revert rng. induction P as [|P IH]; intros rng; simpl; [auto|].
  pose proof (draw_matrix_shape T K rng) as Hm.
  destruct (draw_matrix T K rng) as [x rng1]. specialize (IH rng1).
  destruct (draw_cube P T K rng1) as [xs rng2]. simpl in *.
  destruct IH as [Hl Hf]. split; [congruence|]. constructor; assumption.
Qed.

Lemma length_liq_arr (config : PortfolioSimulatorConfig) :
  List.length (liq_arr config) = List.length (labels config).
Proof. unfold liq_arr, labels. rewrite !length_map. reflexivity. Qed.

(** The haircut of asset [k] on one path whose volume shocks have the
    shape (T, K) with T = [num_days] >= 1. *)
Lemma path_haircut_trailing (config : PortfolioSimulatorConfig)
    (zv : list (list Qc)) (k : nat) :
  zv <> [] ->
  num_days config = Z.of_nat (List.length zv) ->
  Forall (fun r => List.length r = List.length (labels config)) zv ->
  (k < List.length (labels config))%nat ->
  nth k (path_haircut config zv) 1 =
  if (staleness_ruin_days config
      <=? Z.of_nat (trailing_run
                      (map (fun v => Qc_ltb v (volume_threshold config))
                           (column 0%Qc k (path_volume config zv)))))%Z
  then staleness_haircut config else 1.
Proof.
  intros Hne HT Hshape Hk.
  unfold path_haircut, path_is_stale, path_days_stale.
  rewrite map2_map_map, !map_map, nth_map_seq by exact Hk.
  assert (Hrows : Forall (fun row => (k < List.length row)%nat) (path_volume config zv)).
  { unfold path_volume. apply Forall_map. eapply Forall_impl; [|exact Hshape].
    intros r Hr. cbv beta. rewrite length_map2, length_liq_arr, Hr. lia. }
  set (flags := map (fun v => Qc_ltb v (volume_threshold config))
                    (column 0%Qc k (path_volume config zv))).
  assert (Hcol : column 0 k (flipped_below config zv) = map as_float (rev flags)).
  { unfold flipped_below, path_below, flags.
    rewrite column_rev, map_rev. f_equal.
    rewrite (column_map as_float false 0).
    - rewrite (column_map _ 0 false) by exact Hrows. reflexivity.
    - apply Forall_map. eapply Forall_impl; [|exact Hrows].
      intros r Hr. cbv beta. rewrite length_map. exact Hr. }
  rewrite Hcol.
  assert (Hlen : List.length (rev flags) = List.length zv).
  { unfold flags. rewrite length_rev, length_map, length_column.
    unfold path_volume. apply length_map. }
  assert (Hnil : rev flags <> []).
  { intros E. rewrite E in Hlen. destruct zv; [congruence|discriminate]. }
  rewrite HT, <- Hlen, (days_of_flags (rev flags) Hnil), <- trailing_run_rev.
  reflexivity.
Qed.

Lemma draw_shocks_shape (config : PortfolioSimulatorConfig) (rng : Generator) :
  let P := Z.to_nat (num_paths config) in
  let T := Z.to_nat (num_days config) in
  let K := List.length (labels config) in
  List.length (fst (fst (draw_shocks config rng))) = P /\
  List.length (snd (fst (draw_shocks config rng))) = P /\
  List.length (snd (draw_shocks config rng)) = P /\
  Forall (fun m => List.length m = T /\ Forall (fun r => List.length r = K) m)
         (snd (draw_shocks config rng)).
Proof.
  cbv zeta. unfold draw_shocks.
  set (P := Z.to_nat (num_paths config)). set (T := Z.to_nat (num_days config)).
  set (K := List.length (labels config)).
  pose proof (draw_matrix_shape P T rng) as Hm.
  destruct (draw_matrix P T rng) as [zm rng1].
  pose proof (draw_cube_shape P T K rng1) as Hi.
  destruct (draw_cube P T K rng1) as [zi rng2].
  pose proof (draw_cube_shape P T K rng2) as Hv.
  destruct (draw_cube P T K rng2) as [zv rng3].
  simpl in *. tauto.
Qed.

Lemma last_map_nonempty {A B : Type} (f : A -> B) (l : list A) (d : A) (d' : B) :
  l <> [] -> last (map f l) d' = f (last l d).
Proof.
  induction l as [|x l IH]; [congruence|]. intros _.
  destruct l as [|y l]; [reflexivity|].
  change (last (map f (y :: l)) d' = f (last (y :: l) d)).
  apply IH. discriminate.
Qed.

(** *** Facts about the terminal value *)

Lemma nth_map2 {A B C : Type} (f : A -> B -> C) (a : list A) (b : list B)
    (n : nat) (d : C) (da : A) (db : B) :
  (n < List.length a)%nat -> (n < List.length b)%nat ->
  nth n (map2 f a b) d = f (nth n a da) (nth n b db).
Proof.
  revert b n. induction a as [|x a IH]; intros b n Ha Hb; [simpl in Ha; lia|].
  destruct b as [|y b]; [simpl in Hb; lia|].
  change (map2 f (x :: a) (y :: b)) with (f x y :: map2 f a b).
  destruct n as [|n]; simpl; [reflexivity|].
  apply IH; simpl in *; lia.
Qed.

Lemma Forall_map2 {A B C : Type} (P : C -> Prop) (f : A -> B -> C)
    (a : list A) (b : list B) :
  (forall x y, In y b -> P (f x y)) -> Forall P (map2 f a b).
Proof.
  revert b. induction a as [|x a IH]; intros b H; [constructor|].
  destruct b as [|y b]; [constructor|].
  change (map2 f (x :: a) (y :: b)) with (f x y :: map2 f a b).
  constructor; [apply H; left; reflexivity|].
  apply IH. intros x' y' Hin. apply H. right. exact Hin.
Qed.

Lemma last_Forall {A : Type} (P : A -> Prop) (l : list A) (d : A) :
  Forall P l -> P d -> P (last l d).
Proof.
  induction 1 as [|x l Hx Hl IH]; intros Hd; simpl; [exact Hd|].
  destruct l; [exact Hx|]. apply IH. exact Hd.
Qed.

Lemma list_as_map_nth (l : list Qc) (K : nat) :
  List.length l = K -> l = map (fun k => nth k l 0) (seq 0 K).
Proof.
  intros H. apply (nth_ext _ _ 0 0).
  - rewrite length_map, length_seq. exact H.
  - intros n Hn. rewrite nth_map_seq by lia. reflexivity.
Qed.

Lemma length_mu_arr (config : PortfolioSimulatorConfig) :
  List.length (mu_arr config) = List.length (labels config).
Proof. unfold mu_arr, labels. rewrite !length_map. reflexivity. Qed.

Lemma length_sigma_arr (config : PortfolioSimulatorConfig) :
  List.length (sigma_arr config) = List.length (labels config).
Proof. unfold sigma_arr, labels. rewrite !length_map. reflexivity. Qed.

Lemma length_s0 (config : PortfolioSimulatorConfig) :
  List.length (s0 config) = List.length (labels config).
Proof.
  unfold s0. destruct (s0_per_sku config) as [[|e d]|];
    rewrite ?length_map, ?repeat_length; reflexivity.
Qed.

Lemma length_shares (config : PortfolioSimulatorConfig) :
  List.length (shares config) = List.length (labels config).
Proof. unfold shares. rewrite length_map. apply length_s0. Qed.

Lemma blend_rows (config : PortfolioSimulatorConfig) (zm : list Qc)
    (zi : list (list Qc)) (K : nat) :
  Forall (fun r => List.length r = K) zi ->
  Forall (fun r => List.length r = K) (blend config zm zi).
Proof.
  intros H. unfold blend. apply Forall_map2. intros m row Hin.
  rewrite length_map. rewrite Forall_forall in H. apply H. exact Hin.
Qed.

Lemma log_returns_rows (config : PortfolioSimulatorConfig) (z : list (list Qc)) :
  Forall (fun r => List.length r = List.length (labels config)) z ->
  Forall (fun r => List.length r = List.length (labels config))
         (log_returns config z).
Proof.
  intros H. unfold log_returns. apply Forall_map.
  eapply Forall_impl; [|exact H]. intros r Hr. cbv beta.
  rewrite !length_map2, length_map, length_mu_arr, length_sigma_arr, Hr. lia.
Qed.

Lemma cumsum_from_rows (K : nat) (rows : list (list Qc)) :
  forall acc,
    List.length acc = K ->
    Forall (fun r => List.length r = K) rows ->
    Forall (fun r => List.length r = K) (cumsum_from acc rows).
Proof.
  induction rows as [|r rows IH]; intros acc Ha H; simpl; [constructor|].
  inversion H as [|r' rows' Hr Hrest]; subst r' rows'.
  assert (Hl : List.length (map2 Qcplus acc r) = K)
    by (rewrite length_map2; lia).
  constructor; [exact Hl|]. apply IH; assumption.
Qed.

Lemma cumsum_rows (K : nat) (rows : list (list Qc)) :
  Forall (fun r => List.length r = K) rows ->
  Forall (fun r => List.length r = K) (cumsum rows).
Proof.
  intros H. destruct rows as [|r rows]; [constructor|].
  inversion H as [|r' rows' Hr Hrest]; subst r' rows'. simpl.
  constructor; [exact Hr|]. apply cumsum_from_rows; [exact Hr|exact Hrest].
Qed.

Lemma length_path_end_prices (config : PortfolioSimulatorConfig)
    (zm : list Qc) (zi : list (list Qc)) :
  Forall (fun r => List.length r = List.length (labels config)) zi ->
  List.length (path_end_prices config zm zi) = List.length (labels config).
Proof.
  intros H. unfold path_end_prices.
  apply (last_Forall (fun r => List.length r = List.length (labels config)));
    [|apply length_s0].
  unfold prices. constructor; [apply length_s0|].
  apply Forall_map.
  eapply Forall_impl;
    [|apply cumsum_rows, log_returns_rows, blend_rows; exact H].
  intros c Hc. cbv beta. rewrite length_map2, length_s0, Hc. lia.
Qed.

Lemma length_path_haircut (config : PortfolioSimulatorConfig)
    (zv : list (list Qc)) :
  List.length (path_haircut config zv) = List.length (labels config).
Proof.
  unfold path_haircut, path_is_stale, path_days_stale.
  rewrite map2_map_map, !length_map, length_seq. reflexivity.
Qed.

Lemma length_path_value_per_sku (config : PortfolioSimulatorConfig)
    (zm : list Qc) (zi zv : list (list Qc)) :
  Forall (fun r => List.length r = List.length (labels config)) zi ->
  List.length (path_value_per_sku config zm zi zv) = List.length (labels config).
Proof.
  intros H. unfold path_value_per_sku.
  rewrite !length_map2, length_shares, (length_path_end_prices _ _ _ H),
    length_path_haircut. lia.
Qed.

(** Line 115, entry by entry. *)
Lemma path_value_per_sku_entry (config : PortfolioSimulatorConfig)
    (zm : list Qc) (zi zv : list (list Qc)) (k : nat) :
  Forall (fun r => List.length r = List.length (labels config)) zi ->
  (k < List.length (labels config))%nat ->
  nth k (path_value_per_sku config zm zi zv) 0 =
  nth k (shares config) 0 * nth k (path_end_prices config zm zi) 0
  * nth k (path_haircut config zv) 1.
Proof.
  intros H Hk. unfold path_value_per_sku.
  rewrite (nth_map2 Qcmult _ _ k 0 0 1).
  - rewrite (nth_map2 Qcmult _ _ k 0 0 0); [reflexivity| |].
    + rewrite length_shares. exact Hk.
    + rewrite (length_path_end_prices _ _ _ H). exact Hk.
  - rewrite length_map2, length_shares, (length_path_end_prices _ _ _ H). lia.
  - rewrite length_path_haircut. exact Hk.
Qed.

Lemma draw_shocks_shape_idio (config : PortfolioSimulatorConfig) (rng : Generator) :
  Forall (Forall (fun r => List.length r = List.length (labels config)))
         (snd (fst (draw_shocks config rng))).
Proof.
  unfold draw_shocks.
  destruct (draw_matrix _ _ rng) as [zm rng1].
  pose proof (draw_cube_shape (Z.to_nat (num_paths config))
                (Z.to_nat (num_days config)) (List.length (labels config)) rng1)
    as [_ Hi].
  destruct (draw_cube _ _ _ rng1) as [zi rng2].
  destruct (draw_cube _ _ _ rng2) as [zv rng3].
  simpl in *. eapply Forall_impl; [|exact Hi]. intros m [_ Hm]. exact Hm.
Qed.

(** C3. For every path [p] and asset [k] of a run, the multiplier
    applied to the asset's terminal value is the haircut factor if and
    only if the run of consecutive below-threshold volume days ending
    exactly at the final step is at least [staleness_ruin_days] long,
    and 1 otherwise: the asset's terminal value is its units times its
    terminal price times that multiplier, and the terminal portfolio
    value of the path is the sum of these over the assets.  When the
    final step is not below threshold (so no below-threshold run
    touches it) and the run-length is at least one step, the multiplier
    is 1 whatever runs occurred earlier, and the asset's terminal value
    is its units times its terminal price. *)
Theorem haircut_iff_trailing_run (config : PortfolioSimulatorConfig)
    (rng : Generator) (p k : nat) :
  (0 < num_days config)%Z ->
  (p < Z.to_nat (num_paths config))%nat ->
  (k < List.length (labels config))%nat ->
  let a := arrays config rng in
  let series j := column 0%Qc j (nth p (volume a) []) in
  let multiplier j :=
    if (staleness_ruin_days config
        <=? Z.of_nat (trailing_run
                        (map (fun v => Qc_ltb v (volume_threshold config))
                             (series j))))%Z
    then staleness_haircut config else 1 in
  List.length (series k) = Z.to_nat (num_days config) /\
  nth k (nth p (haircut a) []) 1 = multiplier k /\
  nth k (nth p (value_per_sku a) []) 0 =
    nth k (shares config) 0 * nth k (nth p (end_prices a) []) 0 * multiplier k /\
  nth p (final_values a) 0 =
    np_sum (map (fun j => nth j (shares config) 0
                          * nth j (nth p (end_prices a) []) 0 * multiplier j)
                (seq 0 (List.length (labels config)))) /\
  (Qc_ltb (last (series k) 0) (volume_threshold config) = false ->
   (1 <= staleness_ruin_days config)%Z ->
   nth k (nth p (haircut a) []) 1 = 1 /\
   nth k (nth p (value_per_sku a) []) 0 =
     nth k (shares config) 0 * nth k (nth p (end_prices a) []) 0 * 1).
Proof.
  intros HT Hp Hk. cbv zeta.
  destruct (draw_shocks_shape config rng) as (Hlm & Hli & Hlen & Hshape).
  pose proof (draw_shocks_shape_idio config rng) as Hidio.
  unfold arrays. destruct (draw_shocks config rng) as [[zm zi] zv].
  simpl in Hlm, Hli, Hlen, Hshape, Hidio.
  cbn [arrays_of volume haircut value_per_sku end_prices final_values].
  rewrite (nth_map_in (path_volume config) zv p [] []) by lia.
  rewrite (nth_map_in (path_haircut config) zv p [] []) by lia.
  rewrite (nth_map2 _ zm (combine zi zv) p [] [] ([], []))
    by (rewrite ?length_combine; lia).
  rewrite (nth_map2 _ zm (combine zi zv) p 0 [] ([], []))
    by (rewrite ?length_combine; lia).
  rewrite (nth_map2 (path_end_prices config) zm zi p [] [] []) by lia.
  rewrite combine_nth by lia. cbn [fst snd].
  rewrite Forall_forall in Hshape, Hidio.
  destruct (Hshape (nth p zv [])) as [HlenT HlenK]; [apply nth_In; lia|].
  assert (HidioK := Hidio (nth p zi []) ltac:(apply nth_In; lia)).
  assert (Hne : nth p zv [] <> []).
  { intros E. rewrite E in HlenT. simpl in HlenT. lia. }
  assert (Hlen_series :
            List.length (column 0 k (path_volume config (nth p zv [])))
            = Z.to_nat (num_days config)).
  { rewrite length_column. unfold path_volume. rewrite length_map. exact HlenT. }
  assert (Hmult := fun j (Hj : (j < List.length (labels config))%nat) =>
                     path_haircut_trailing config (nth p zv []) j Hne
                       ltac:(rewrite HlenT; lia) HlenK Hj).
  assert (Hvalue := fun j (Hj : (j < List.length (labels config))%nat) =>
                      path_value_per_sku_entry config (nth p zm []) (nth p zi [])
                        (nth p zv []) j HidioK Hj).
  split; [exact Hlen_series|]. split; [exact (Hmult k Hk)|].
  split; [rewrite (Hvalue k Hk), (Hmult k Hk); reflexivity|].
  split.
  - unfold path_final_value.
    rewrite (list_as_map_nth _ _
               (length_path_value_per_sku config (nth p zm []) (nth p zi [])
                  (nth p zv []) HidioK)) at 1.
    f_equal. apply map_ext_in. intros j Hj. apply in_seq in Hj.
    rewrite (Hvalue j ltac:(lia)), (Hmult j ltac:(lia)). reflexivity.
  - intros Hlast Hdays.
    assert (Hone : nth k (path_haircut config (nth p zv [])) 1 = 1).
    { rewrite (Hmult k Hk). rewrite trailing_run_last.
      - destruct (Z.leb_spec (staleness_ruin_days config) (Z.of_nat 0));
          [lia|reflexivity].
      - rewrite (last_map_nonempty _ _ 0).
        + exact Hlast.
        + intros E. rewrite E in Hlen_series. simpl in Hlen_series. lia. }
    split; [exact Hone|]. rewrite (Hvalue k Hk), Hone. reflexivity.
Qed.

(** *** Facts about means of flags *)

Lemma fold_left_Qcplus (l : list Qc) (a : Qc) :
  fold_left Qcplus l a = a + fold_left Qcplus l 0.
Proof.
  revert a. induction l as [|x l IH]; intros a; simpl.
  - ring.
  - rewrite (IH (a + x)), (IH (0 + x)). ring.
Qed.

Lemma np_sum_cons (x : Qc) (l : list Qc) : np_sum (x :: l) = x + np_sum l.
Proof.
  unfold np_sum. simpl. rewrite fold_left_Qcplus. ring.
Qed.

Lemma sum_flags_nonneg (l : list bool) : 0 <= np_sum (map as_float l).
Proof.
  induction l as [|b l IH]; simpl.
  - apply Qcle_refl.
  - rewrite np_sum_cons.
    replace 0 with (0 + 0) by ring.
    apply Qcplus_le_compat; [|exact IH].
    destruct b; apply Qc_leb_le; reflexivity.
Qed.

Lemma sum_flags_and_le (r h : list bool) :
  np_sum (map as_float (map2 andb r h)) <= np_sum (map as_float r).
Proof.
  revert h. induction r as [|x r IH]; intros h.
  - apply Qcle_refl.
  - destruct h as [|y h].
    + apply (sum_flags_nonneg (x :: r)).
    + change (map2 andb (x :: r) (y :: h)) with ((x && y)%bool :: map2 andb r h).
      cbn [map]. rewrite !np_sum_cons.
      apply Qcplus_le_compat; [|apply IH].
      destruct x, y; apply Qc_leb_le; reflexivity.
Qed.

Lemma Qcinv_nonneg (c : Qc) : 0 <= c -> 0 <= / c.
Proof.
  unfold Qcle. intros H.
  change (this (/ c)) with (Qred (/ this c)).
  rewrite Qred_correct. apply Qinv_le_0_compat. exact H.
Qed.

Lemma mean_le (a b : Qc) (n : nat) :
  a <= b -> a / of_Z (Z.of_nat n) <= b / of_Z (Z.of_nat n).
Proof.
  intros H. unfold Qcdiv. apply Qcmult_le_compat_r; [exact H|].
  apply Qcinv_nonneg. apply (of_Z_le 0). lia.
Qed.

Lemma nth_map2_and (r h : list bool) (p : nat) :
  nth p (map2 andb r h) false = true ->
  nth p r false = true /\ nth p h false = true.
Proof.
  revert h p. induction r as [|x r IH]; intros h p.
  - destruct p; discriminate.
  - destruct h as [|y h]; [destruct p; discriminate|].
    change (map2 andb (x :: r) (y :: h)) with ((x && y)%bool :: map2 andb r h).
    destruct p as [|p]; simpl.
    + intros H. apply andb_prop in H. exact H.
    + apply IH.
Qed.

(** C2. Whenever a run returns, the reported
    [probability_of_ruin_staleness] is at most the reported
    [probability_of_ruin]: every path counted for the former is a ruined
    path that has at least one stale asset. *)
Theorem staleness_ruin_at_most_ruin (entropy : Z)
    (config : PortfolioSimulatorConfig) (r : Result) :
  run_portfolio_monte_carlo entropy config = Some r ->
  probability_of_ruin_staleness r <= probability_of_ruin r /\
  let a :=
    arrays config
           (default_rng (match seed config with Some s => s | None => entropy end)) in
  forall p,
    nth p (map2 andb (ruin_paths a) (had_stale a)) false = true ->
    nth p (ruin_paths a) false = true /\
    exists k, nth k (nth p (is_stale a) []) false = true.
Proof.
  intros Hrun. cbv zeta.
  set (rng := default_rng (match seed config with Some s => s | None => entropy end)).
  split.
  - unfold run_portfolio_monte_carlo in Hrun. fold rng in Hrun.
    destruct ((num_paths config <? 0)%Z || (num_days config <? 0)%Z); [discriminate|].
    destruct (num_days config =? 0)%Z; [discriminate|].
    destruct (np_percentile _ _); [|discriminate].
    destruct (np_percentile _ _); [|discriminate].
    destruct (np_percentile _ _); [|discriminate].
    injection Hrun as <-. cbn [probability_of_ruin_staleness probability_of_ruin].
    unfold mean_of_flags, np_mean.
    assert (Hlen : List.length (map2 andb (ruin_paths (arrays config rng))
                                     (had_stale (arrays config rng)))
                   = List.length (ruin_paths (arrays config rng))).
    { destruct (draw_shocks_shape config rng) as (Hm & Hi & Hv & _).
      unfold arrays. destruct (draw_shocks config rng) as [[zm zi] zv].
      simpl in Hm, Hi, Hv. cbn [arrays_of ruin_paths had_stale].
      rewrite length_map2, !length_map, length_map2, length_combine. lia. }
    rewrite !length_map, Hlen. apply mean_le. apply sum_flags_and_le.
  - intros p Hp. apply nth_map2_and in Hp. destruct Hp as [Hr Hs].
    split; [exact Hr|].
    unfold arrays in *. destruct (draw_shocks config rng) as [[zm zi] zv].
    cbn [arrays_of had_stale is_stale] in *.
    destruct (Nat.lt_ge_cases p (List.length (map (path_is_stale config) zv)))
      as [Hlt|Hge].
    + rewrite (nth_map_in _ _ p false []) in Hs by exact Hlt.
      apply existsb_exists in Hs. destruct Hs as (b & Hin & ->).
      destruct (In_nth _ _ false Hin) as (k & _ & Hk). exists k. exact Hk.
    + rewrite nth_overflow in Hs by (rewrite length_map; exact Hge). discriminate.
Qed.

(** *** Facts about the order of the draws *)

Lemma draw_vector_app (a b : nat) (rng : Generator) :
  draw_vector (a + b) rng =
  (fst (draw_vector a rng) ++ fst (draw_vector b (snd (draw_vector a rng))),
   snd (draw_vector b (snd (draw_vector a rng)))).
Proof.
  revert rng. induction a as [|a IH]; intros rng; simpl.
  - destruct (draw_vector b rng); reflexivity.
  - destruct (next_normal rng) as [x rng1]. rewrite (IH rng1).
    destruct (draw_vector a rng1) as [xs rng2]. reflexivity.
Qed.

Lemma draw_matrix_flat (rows cols : nat) (rng : Generator) :
  (List.concat (fst (draw_matrix rows cols rng)), snd (draw_matrix rows cols rng))
  = draw_vector (rows * cols) rng.
Proof.
  revert rng. induction rows as [|rows IH]; intros rng; simpl; [reflexivity|].
  rewrite draw_vector_app.
  destruct (draw_vector cols rng) as [x rng1]. cbn [fst snd].
  rewrite <- (IH rng1).
  destruct (draw_matrix rows cols rng1) as [xs rng2]. reflexivity.
Qed.

Lemma draw_cube_flat (P T K : nat) (rng : Generator) :
  (List.concat (List.concat (fst (draw_cube P T K rng))), snd (draw_cube P T K rng))
  = draw_vector (P * (T * K)) rng.
Proof.
  revert rng. induction P as [|P IH]; intros rng; simpl; [reflexivity|].
  rewrite draw_vector_app, <- (draw_matrix_flat T K rng).
  destruct (draw_matrix T K rng) as [x rng1]. cbn [fst snd].
  rewrite <- (IH rng1).
  destruct (draw_cube P T K rng1) as [xs rng2]. cbn [fst snd List.concat].
  rewrite concat_app. reflexivity.
Qed.

Lemma firstn_exact {A : Type} (xs r : list A) : firstn (List.length xs) (xs ++ r) = xs.
Proof. induction xs as [|x xs IH]; simpl; [reflexivity|congruence]. Qed.

Lemma skipn_exact {A : Type} (xs r : list A) : skipn (List.length xs) (xs ++ r) = r.
Proof. induction xs as [|x xs IH]; simpl; [reflexivity|exact IH]. Qed.

(** The three arrays of shocks are consecutive segments of the stream
    of normals drawn from the generator: market, idiosyncratic, volume. *)
Lemma draw_shocks_stream (config : PortfolioSimulatorConfig) (rng : Generator) :
  let P := Z.to_nat (num_paths config) in
  let T := Z.to_nat (num_days config) in
  let K := List.length (labels config) in
  let stream := fst (draw_vector (P * T + P * (T * K) + P * (T * K)) rng) in
  List.concat (fst (fst (draw_shocks config rng))) = firstn (P * T) stream /\
  List.concat (List.concat (snd (fst (draw_shocks config rng))))
  = firstn (P * (T * K)) (skipn (P * T) stream) /\
  List.concat (List.concat (snd (draw_shocks config rng)))
  = skipn (P * T + P * (T * K)) stream.
Proof.
  cbv zeta. unfold draw_shocks.
  set (P := Z.to_nat (num_paths config)). set (T := Z.to_nat (num_days config)).
  set (K := List.length (labels config)).
  rewrite !draw_vector_app. cbn [fst snd].
  pose proof (draw_matrix_flat P T rng) as Hm.
  pose proof (draw_vector_length (P * T) rng) as Lm.
  destruct (draw_matrix P T rng) as [zm rng1].
  rewrite <- Hm in *. cbn [fst snd] in *.
  pose proof (draw_cube_flat P T K rng1) as Hi.
  pose proof (draw_vector_length (P * (T * K)) rng1) as Li.
  destruct (draw_cube P T K rng1) as [zi rng2].
  rewrite <- Hi in *. cbn [fst snd] in *.
  pose proof (draw_cube_flat P T K rng2) as Hv.
  destruct (draw_cube P T K rng2) as [zv rng3].
  rewrite <- Hv. cbn [fst snd].
  rewrite <- app_assoc.
  split; [|split].
  - rewrite <- Lm. symmetry. apply firstn_exact.
  - rewrite <- Lm, skipn_exact, <- Li. symmetry. apply firstn_exact.
  - rewrite app_assoc, <- Lm, <- Li, <- length_app. symmetry. apply skipn_exact.
Qed.

(** C1. With a fixed (non-null) seed the result of the engine is a
    function of the configuration alone: two invocations agree on the
    whole result, terminal values included, whatever entropy the
    operating system holds; and all randomness is one stream of normals
    drawn from the generator seeded with that seed, consumed in the
    order market shocks, idiosyncratic shocks, volume shocks. *)
Theorem seeded_run_deterministic (config : PortfolioSimulatorConfig) (s : Z) :
  seed config = Some s ->
  (forall entropy1 entropy2,
     run_portfolio_monte_carlo entropy1 config
     = run_portfolio_monte_carlo entropy2 config) /\
  (forall entropy r,
     run_portfolio_monte_carlo entropy config = Some r ->
     r_final_values r = final_values (arrays config (default_rng s))) /\
  let P := Z.to_nat (num_paths config) in
  let T := Z.to_nat (num_days config) in
  let K := List.length (labels config) in
  let a := arrays config (default_rng s) in
  let stream :=
    fst (draw_vector (P * T + P * (T * K) + P * (T * K)) (default_rng s)) in
  List.concat (Z_market a) = firstn (P * T) stream /\
  List.concat (List.concat (Z_idio a)) = firstn (P * (T * K)) (skipn (P * T) stream) /\
  List.concat (List.concat (Z_vol a)) = skipn (P * T + P * (T * K)) stream.
Proof.
  intros Hs. split; [|split].
  - intros e1 e2. unfold run_portfolio_monte_carlo. rewrite Hs. reflexivity.
  - intros e r. unfold run_portfolio_monte_carlo. rewrite Hs.
    destruct ((num_paths config <? 0)%Z || (num_days config <? 0)%Z); [discriminate|].
    destruct (num_days config =? 0)%Z; [discriminate|].
    destruct (np_percentile _ _); [|discriminate].
    destruct (np_percentile _ _); [|discriminate].
    destruct (np_percentile _ _); [|discriminate].
    intros H. injection H as <-. reflexivity.
  - cbv zeta. pose proof (draw_shocks_stream config (default_rng s)) as H.
    cbv zeta in H. unfold arrays.
    destruct (draw_shocks config (default_rng s)) as [[zm zi] zv].
    exact H.
Qed.

(** *** Facts about the volatility floor *)

Lemma np_maximum_idem (a c : Qc) : np_maximum (np_maximum a c) c = np_maximum a c.
Proof.
  unfold np_maximum. destruct (Qc_ltb a c) eqn:E.
  - rewrite Qc_ltb_irrefl. reflexivity.
  - rewrite E. reflexivity.
Qed.

Lemma np_maximum_below (a c : Qc) : a <= c -> np_maximum a c = c.
Proof.
  intros H. unfold np_maximum. destruct (Qc_ltb a c) eqn:E; [reflexivity|].
  apply Qcle_antisym; [exact H|].
  apply Qcnot_lt_le. intros Hlt. apply Qc_ltb_lt in Hlt. congruence.
Qed.

(** The engine reads [sku_params] through four arrays only. *)
Lemma run_sku_params_ext (entropy : Z) (config : PortfolioSimulatorConfig)
    (l : list (string * SkuParams)) :
  labels (with_sku_params config l) = labels config ->
  mu_arr (with_sku_params config l) = mu_arr config ->
  sigma_arr (with_sku_params config l) = sigma_arr config ->
  liq_arr (with_sku_params config l) = liq_arr config ->
  run_portfolio_monte_carlo entropy (with_sku_params config l)
  = run_portfolio_monte_carlo entropy config.
Proof.
  intros Hl Hm Hs Hq.
  unfold run_portfolio_monte_carlo, arrays, draw_shocks, arrays_of,
    path_final_value, path_value_per_sku, path_end_prices, prices, log_returns,
    blend, shares, s0,
    path_haircut, path_is_stale, path_days_stale, flipped_below, path_below,
    path_volume.
  rewrite Hl, Hm, Hs, Hq. reflexivity.
Qed.

Lemma floor_sigma_arrays (config : PortfolioSimulatorConfig) :
  let config' := with_sku_params config (map floor_sigma (sku_params config)) in
  labels config' = labels config /\ mu_arr config' = mu_arr config /\
  sigma_arr config' = sigma_arr config /\ liq_arr config' = liq_arr config.
Proof.
  cbv zeta. unfold labels, mu_arr, sigma_arr, liq_arr, effective_sku_params.
  cbn [with_sku_params sku_params].
  destruct (sku_params config) as [|item rest]; [repeat split|].
  cbn [map floor_sigma fst snd mu sigma liquidity_score].
  rewrite !map_map. cbn [floor_sigma fst snd mu sigma liquidity_score].
  repeat split.
  f_equal; [apply np_maximum_idem|].
  apply map_ext. intros x. apply np_maximum_idem.
Qed.

(** C10. The engine replaces each asset's volatility by
    [max(sigma, 1e-6)] before it generates any path: a run returns what
    it returns on the configuration with every volatility so replaced;
    consequently a configuration in which some asset has
    [sigma <= 1e-6] (zero or negative included) gives exactly the result
    of the same configuration with that asset's volatility set to
    [1e-6]. *)
Theorem sigma_floor (entropy : Z) (config : PortfolioSimulatorConfig) :
  run_portfolio_monte_carlo entropy config
  = run_portfolio_monte_carlo entropy
      (with_sku_params config (map floor_sigma (sku_params config)))
  /\
  forall before name p after,
    sku_params config = before ++ (name, p) :: after ->
    sigma p <= ratio 1 1000000 ->
    run_portfolio_monte_carlo entropy config
    = run_portfolio_monte_carlo entropy
        (with_sku_params config
           (before ++ (name, mkSku (mu p) (ratio 1 1000000) (liquidity_score p))
                   :: after)).
Proof.
  assert (Hall : forall c,
             run_portfolio_monte_carlo entropy c
             = run_portfolio_monte_carlo entropy
                 (with_sku_params c (map floor_sigma (sku_params c)))).
  { intros c. symmetry.
    destruct (floor_sigma_arrays c) as (Hl & Hm & Hs & Hq).
    apply run_sku_params_ext; assumption. }
  split; [apply Hall|].
  intros before name p after Hsku Hsigma.
  etransitivity; [apply Hall|]. symmetry. etransitivity; [apply Hall|].
  refine (f_equal
            (fun l => run_portfolio_monte_carlo entropy (with_sku_params config l))
            (_ : map floor_sigma
                   (before
                    ++ (name, mkSku (mu p) (ratio 1 1000000) (liquidity_score p))
                    :: after)
                 = map floor_sigma (sku_params config))).
  rewrite Hsku, !map_app. f_equal. cbn [map]. f_equal.
  unfold floor_sigma. cbn [fst snd mu sigma liquidity_score].
  rewrite (np_maximum_below _ _ Hsigma).
  rewrite (np_maximum_below (ratio 1 1000000) _ (Qcle_refl _)).
  reflexivity.
Qed.

End Engine.

(** *** The engine on a concrete configuration *)

(** A small generator: the state is a counter modulo 101, a draw is one
    of seven values between -3/2 and 3/2. *)
Definition counter_rng (seed : Z) : Z := (seed mod 101)%Z.

Definition counter_normal (state : Z) : Qc * Z :=
  (ratio (state mod 7 - 3) 2, ((state * 5 + 3) mod 101)%Z).

(** Two assets, the second with zero volatility; two paths of three
    steps; seed 42. *)
Definition small_config : PortfolioSimulatorConfig :=
  {| initial_capital := of_Z 100000;
     num_days := 3;
     num_paths := 2;
     sku_params :=
       [ ("A"%string, mkSku (ratio 5 100) (ratio 35 100) (ratio 5 10));
         ("B"%string, mkSku (ratio 2 100) 0 (ratio 5 100)) ];
     s0_per_sku := None;
     market_beta := ratio 5 10;
     volume_threshold := ratio 1 10;
     staleness_ruin_days := 2;
     staleness_haircut := 0;
     ruin_pct := ratio 5 10;
     seed := Some 42%Z |}.

(** The same configuration with an initial price given for the first
    asset only. *)
Definition priced_config : PortfolioSimulatorConfig :=
  {| initial_capital := of_Z 100000;
     num_days := 3;
     num_paths := 2;
     sku_params := sku_params small_config;
     s0_per_sku := Some [("A"%string, of_Z 50)];
     market_beta := ratio 5 10;
     volume_threshold := ratio 1 10;
     staleness_ruin_days := 2;
     staleness_haircut := 0;
     ruin_pct := ratio 5 10;
     seed := Some 42%Z |}.

(** Every entry of a given [s0_per_sku] is read; an asset without an
    entry starts at 100. *)
Lemma s0_reads_given_prices :
  s0 priced_config = [of_Z 50; of_Z 100] /\
  s0 small_config = [of_Z 100; of_Z 100].
Proof. split; reflexivity. Qed.

Lemma seeded_run_deterministic_witness :
  run_portfolio_monte_carlo Z counter_rng counter_normal taylor_exp newton_sqrt
                            0 small_config
  = run_portfolio_monte_carlo Z counter_rng counter_normal taylor_exp newton_sqrt
                              1 small_config.
Proof.
  destruct (seeded_run_deterministic Z counter_rng counter_normal taylor_exp
              newton_sqrt small_config 42 eq_refl) as [H _].
  apply H.
Defined.

Lemma staleness_ruin_at_most_ruin_witness :
  match run_portfolio_monte_carlo Z counter_rng counter_normal taylor_exp
                                  newton_sqrt 0 small_config with
  | Some r => probability_of_ruin_staleness r <= probability_of_ruin r
  | None => False
  end.
Proof.
  destruct (run_portfolio_monte_carlo Z counter_rng counter_normal taylor_exp
                                      newton_sqrt 0 small_config) as [r|] eqn:E.
  - apply (staleness_ruin_at_most_ruin Z counter_rng counter_normal taylor_exp
             newton_sqrt 0 small_config r E).
  - vm_compute in E. discriminate E.
Defined.

Lemma haircut_iff_trailing_run_witness :
  nth 1 (nth 0 (haircut (arrays Z counter_normal taylor_exp newton_sqrt
                                small_config (counter_rng 42))) []) 1
  = (if (staleness_ruin_days small_config
         <=? Z.of_nat
               (trailing_run
                  (map (fun v => Qc_ltb v (volume_threshold small_config))
                       (column 0%Qc 1
                          (nth 0 (volume (arrays Z counter_normal taylor_exp
                                                 newton_sqrt small_config
                                                 (counter_rng 42))) [])))))%Z
     then staleness_haircut small_config else 1)
  /\
  nth 1 (nth 0 (value_per_sku (arrays Z counter_normal taylor_exp newton_sqrt
                                      small_config (counter_rng 42))) []) 0
  = nth 1 (shares small_config) 0
    * nth 1 (nth 0 (end_prices (arrays Z counter_normal taylor_exp newton_sqrt
                                       small_config (counter_rng 42))) []) 0
    * (if (staleness_ruin_days small_config
           <=? Z.of_nat
                 (trailing_run
                    (map (fun v => Qc_ltb v (volume_threshold small_config))
                         (column 0%Qc 1
                            (nth 0 (volume (arrays Z counter_normal taylor_exp
                                                   newton_sqrt small_config
                                                   (counter_rng 42))) [])))))%Z
       then staleness_haircut small_config else 1).
Proof.
  destruct (haircut_iff_trailing_run Z counter_normal taylor_exp newton_sqrt
              small_config (counter_rng 42) 0 1) as (_ & H2 & H3 & _).
  - reflexivity.
  - simpl. lia.
  - simpl. lia.
  - split; [exact H2 | exact H3].
Defined.

Lemma sigma_floor_witness :
  run_portfolio_monte_carlo Z counter_rng counter_normal taylor_exp newton_sqrt
                            0 small_config
  = run_portfolio_monte_carlo Z counter_rng counter_normal taylor_exp newton_sqrt
      0
      (with_sku_params small_config
         ([("A"%string, mkSku (ratio 5 100) (ratio 35 100) (ratio 5 10))]
          ++ ("B"%string,
              mkSku (mu (mkSku (ratio 2 100) 0 (ratio 5 100))) (ratio 1 1000000)
                    (liquidity_score (mkSku (ratio 2 100) 0 (ratio 5 100))))
          :: [])).
Proof.
  destruct (sigma_floor Z counter_rng counter_normal taylor_exp newton_sqrt
              0 small_config) as [_ H].
  apply (H [("A"%string, mkSku (ratio 5 100) (ratio 35 100) (ratio 5 10))]
           "B"%string (mkSku (ratio 2 100) 0 (ratio 5 100)) []).
  - reflexivity.
  - apply Qc_leb_le. vm_compute. reflexivity.
Defined.

End Simulator.
